(** * model_analyzer: the concurrency search, the brute-plus generator and
      the numeric range field

    A shallow embedding of
      - [model_analyzer/result/concurrency_search.py] (class ConcurrencySearch),
      - [model_analyzer/config/generate/brute_plus_binary_parameter_search_run_config_generator.py],
      - [model_analyzer/config/input/config_range_numeric.py],
    and the properties of these that the specification states.

    Python generators are embedded as resumption trees ([Gen]): a generator
    either returns, raises, or yields a value and waits for the caller, who
    may mutate the object the generator works on before resuming it. *)

From Stdlib Require Import String Ascii DecimalString DecimalPos ZArith QArith
  List Bool Lia.
Import ListNotations.
Local Open Scope Z_scope.

(* ===================================================================== *)
(** ** Python preliminaries *)
(* ===================================================================== *)

(** The exceptions the embedded code can raise. *)
Inductive Exn : Type :=
| TritonModelAnalyzerException
| IndexError
| UnboundLocalError
| TypeError
| AttributeError
| OverflowError
| ValueError.

(** Fallible code: [inl e] is a raised exception, [inr a] a normal result. *)
Definition Res (A : Type) : Type := (Exn + A)%type.

Definition ok {A} (a : A) : Res A := inr a.
Definition raise {A} (e : Exn) : Res A := inl e.

Definition rbind {A B} (r : Res A) (f : A -> Res B) : Res B :=
  match r with
  | inl e => inl e
  | inr a => f a
  end.

Declare Scope res_scope.
Delimit Scope res_scope with res.
Notation "x <- r ;; k" := (rbind r (fun x => k))
  (at level 61, r at next level, right associativity) : res_scope.
Notation "' p <- r ;; k" := (rbind r (fun x => let p := x in k))
  (at level 61, p pattern, r at next level, right associativity) : res_scope.

(** [l[k]] for a Python list and an integer index: negative indices count
    from the end, anything out of range raises IndexError. *)
Definition py_getitem {A} (l : list A) (k : Z) : Res A :=
  let n := Z.of_nat (length l) in
  let k' := if k <? 0 then k + n else k in
  if (k' <? 0) || (n <=? k') then raise IndexError
  else match nth_error l (Z.to_nat k') with
       | Some a => ok a
       | None => raise IndexError
       end.

(** [l[k:]]: the start is clamped to the list, never an error. *)
Definition py_slice_from {A} (l : list A) (k : Z) : list A :=
  let n := Z.of_nat (length l) in
  let k' := if k <? 0 then Z.max (k + n) 0 else Z.min k n in
  skipn (Z.to_nat k') l.

(** [range(start, stop, -1)] on naturals: start, start-1, ..., stop+1. *)
Fixpoint py_range_down (start stop : nat) : list nat :=
  match start with
  | O => []
  | S p => if (stop <? start)%nat then start :: py_range_down p stop else []
  end.

(** [range(start, stop)]. *)
Definition py_range (start stop : nat) : list nat := seq start (stop - start).

(** [n / d] rounded to the nearest integer, a tie going to the even one
    (for [0 <= n] and [0 < d]). *)
Definition round_half_even (n d : Z) : Z :=
  let q := n / d in
  let r := n mod d in
  if 2 * r <? d then q
  else if d <? 2 * r then q + 1
  else if Z.even q then q
  else q + 1.

(** [int(x / 2)] for an integer [x].  [x / 2] is a float: the quotient
    correctly rounded to 53 significant bits, ties to even, or OverflowError
    when that is beyond the largest float; [int] of a float truncates towards
    zero.  Below 2^53 the quotient is a float as it is; from there on the
    float is a multiple of its unit in the last place, an integer. *)
Definition int_half (x : Z) : Res Z :=
  let a := Z.abs x in
  if a <? 2 ^ 53 then ok (Z.quot x 2)
  else
    let ulp := 2 ^ (Z.log2 a - 53) in
    let r := round_half_even a (2 * ulp) * ulp in
    if 2 ^ 1024 <=? r then raise OverflowError else ok (Z.sgn x * r).

Arguments int_half : simpl never.

(** [a < b] on rationals, as a boolean. *)
Definition Qltb (a b : Q) : bool := negb (Qle_bool b a).

(* ===================================================================== *)
(** ** Generators *)
(* ===================================================================== *)

(** A generator yielding [Y], resumed with [R] (what the caller did to the
    shared object while the generator was suspended), returning [A]. *)
Inductive Gen (Y R A : Type) : Type :=
| Ret (a : A)
| Raise (e : Exn)
| Yield (y : Y) (k : R -> Gen Y R A).

Arguments Ret {Y R A} a.
Arguments Raise {Y R A} e.
Arguments Yield {Y R A} y k.

(** [yield from g] followed by [f]. *)
Fixpoint gbind {Y R A B} (g : Gen Y R A) (f : A -> Gen Y R B) : Gen Y R B :=
  match g with
  | Ret a => f a
  | Raise e => Raise e
  | Yield y k => Yield y (fun r => gbind (k r) f)
  end.

(** Lifting fallible straight-line code into a generator. *)
Definition glift {Y R A B} (r : Res A) (f : A -> Gen Y R B) : Gen Y R B :=
  match r with
  | inl e => Raise e
  | inr a => f a
  end.

(** How a run of a generator against a caller ends. *)
Inductive Outcome (A : Type) : Type :=
| Finished (a : A)
| Raised (e : Exn)
| Suspended.

Arguments Finished {A} a.
Arguments Raised {A} e.
Arguments Suspended {A}.

(** The caller pulls from the generator and answers the n-th yield with the
    n-th element of [script]; when the script is used up the generator is
    left suspended at its last yield. *)
Fixpoint run {Y R A} (g : Gen Y R A) (script : list R) : list Y * Outcome A :=
  match g with
  | Ret a => ([], Finished a)
  | Raise e => ([], Raised e)
  | Yield y k =>
      match script with
      | [] => ([y], Suspended)
      | r :: rs => let (ys, o) := run (k r) rs in (y :: ys, o)
      end
  end.

Definition emitted {Y R A} (g : Gen Y R A) (script : list R) : list Y :=
  fst (run g script).

Definition outcome {Y R A} (g : Gen Y R A) (script : list R) : Outcome A :=
  snd (run g script).

(** No run of [g] yields more than [n] values. *)
Inductive yields_le {Y R A} : nat -> Gen Y R A -> Prop :=
| yl_ret n a : yields_le n (Ret a)
| yl_raise n e : yields_le n (Raise e)
| yl_yield n y k : (forall r, yields_le n (k r)) -> yields_le (S n) (Yield y k).

(** Every value [g] can return satisfies [P]. *)
Fixpoint returns_sat {Y R A} (P : A -> Prop) (g : Gen Y R A) : Prop :=
  match g with
  | Ret a => P a
  | Raise _ => True
  | Yield _ k => forall r, returns_sat P (k r)
  end.

(* ===================================================================== *)
(** ** Measurements *)
(* ===================================================================== *)

(** What the search uses of a RunConfigMeasurement.  The class itself lives
    in [model_analyzer/result/run_config_measurement.py]; the search only
    calls the three operations below.  A measurement object is truthy, so
    [not rcm] holds exactly of [None]. *)
Class Measurement (RCM : Type) : Type := {
  is_passing_constraints : RCM -> bool;
  (** [a < b], the order [max] uses *)
  rcm_lt : RCM -> RCM -> bool;
  (** [self.compare_measurements(other)] *)
  compare_measurements : RCM -> RCM -> Q
}.

(** The constants of [model_analyzer/constants.py] the search reads. *)
Record Constants : Type := {
  THROUGHPUT_MINIMUM_GAIN : Q;
  THROUGHPUT_MINIMUM_CONSECUTIVE_CONCURRENCY_TRIES : nat
}.

(** The part of ConfigCommandProfile the search reads. *)
Record ConfigCommandProfile : Type := {
  run_config_search_min_concurrency : Z;
  run_config_search_max_concurrency : Z;
  run_config_search_max_binary_search_steps : Z
}.

(* ===================================================================== *)
(** ** concurrency_search.py: class ConcurrencySearch *)
(* ===================================================================== *)

Section Search.

Context {RCM : Type} `{M : Measurement RCM}.
Variable K : Constants.

Local Open Scope res_scope.

(** The attributes of a ConcurrencySearch object. *)
Record ConcurrencySearch : Type := {
  _min_concurrency_index : nat;
  _max_concurrency_index : nat;
  _max_binary_search_steps : Z;
  _run_config_measurements : list (option RCM);
  _concurrencies : list Z;
  _last_failing_concurrency : Z;
  _last_passing_concurrency : Z
}.

Definition set_measurements (s : ConcurrencySearch) (l : list (option RCM)) :=
  {| _min_concurrency_index := _min_concurrency_index s;
     _max_concurrency_index := _max_concurrency_index s;
     _max_binary_search_steps := _max_binary_search_steps s;
     _run_config_measurements := l;
     _concurrencies := _concurrencies s;
     _last_failing_concurrency := _last_failing_concurrency s;
     _last_passing_concurrency := _last_passing_concurrency s |}.

Definition set_concurrencies (s : ConcurrencySearch) (l : list Z) :=
  {| _min_concurrency_index := _min_concurrency_index s;
     _max_concurrency_index := _max_concurrency_index s;
     _max_binary_search_steps := _max_binary_search_steps s;
     _run_config_measurements := _run_config_measurements s;
     _concurrencies := l;
     _last_failing_concurrency := _last_failing_concurrency s;
     _last_passing_concurrency := _last_passing_concurrency s |}.

Definition set_last_failing (s : ConcurrencySearch) (c : Z) :=
  {| _min_concurrency_index := _min_concurrency_index s;
     _max_concurrency_index := _max_concurrency_index s;
     _max_binary_search_steps := _max_binary_search_steps s;
     _run_config_measurements := _run_config_measurements s;
     _concurrencies := _concurrencies s;
     _last_failing_concurrency := c;
     _last_passing_concurrency := _last_passing_concurrency s |}.

Definition set_last_passing (s : ConcurrencySearch) (c : Z) :=
  {| _min_concurrency_index := _min_concurrency_index s;
     _max_concurrency_index := _max_concurrency_index s;
     _max_binary_search_steps := _max_binary_search_steps s;
     _run_config_measurements := _run_config_measurements s;
     _concurrencies := _concurrencies s;
     _last_failing_concurrency := _last_failing_concurrency s;
     _last_passing_concurrency := c |}.

(** [math.log2(x)] for a positive integer [x]: the float the call returns,
    as a rational.  How the logarithm is rounded is the C library's affair,
    so the function is a parameter of the constructor. *)
Variable float_log2 : Z -> Q.

(** [int(f)] for a float [f]: truncation towards zero. *)
Definition int_of_float (f : Q) : Z := Z.quot (Qnum f) (Zpos (Qden f)).

(** [int(log2(x))]: a math domain error (ValueError) unless [x] is
    positive, else the logarithm as the float it is, truncated; the
    logarithm of a positive integer is not negative. *)
Definition int_log2 (x : Z) : Res nat :=
  if x <=? 0 then raise ValueError
  else ok (Z.to_nat (int_of_float (float_log2 x))).

(** [ConcurrencySearch.__init__] *)
Definition init (config : ConfigCommandProfile) : Res ConcurrencySearch :=
  lo <- int_log2 (run_config_search_min_concurrency config) ;;
  hi <- int_log2 (run_config_search_max_concurrency config) ;;
  ok {| _min_concurrency_index := lo;
        _max_concurrency_index := hi;
        _max_binary_search_steps :=
          run_config_search_max_binary_search_steps config;
        _run_config_measurements := [];
        _concurrencies := [];
        _last_failing_concurrency := 0;
        _last_passing_concurrency := 0 |}.

(** [add_run_config_measurement] *)
Definition add_run_config_measurement
    (s : ConcurrencySearch) (m : option RCM) : ConcurrencySearch :=
  set_measurements s (_run_config_measurements s ++ [m]).

(** What the caller did between a yield and the next resumption: the
    measurements it added, in order. *)
Definition add_all (s : ConcurrencySearch) (ms : list (option RCM)) :=
  fold_left add_run_config_measurement ms s.

(** [_check_measurement_count] *)
Definition _check_measurement_count (s : ConcurrencySearch) : Res unit :=
  if negb (length (_run_config_measurements s) =? length (_concurrencies s))%nat
  then raise TritonModelAnalyzerException
  else ok tt.

(** [_are_minimum_tries_reached] *)
Definition _are_minimum_tries_reached (s : ConcurrencySearch) : bool :=
  if (length (_run_config_measurements s)
      <? THROUGHPUT_MINIMUM_CONSECUTIVE_CONCURRENCY_TRIES K)%nat
  then false
  else true.

(** [max] over a non-empty list: the running maximum is replaced only by
    a strictly greater item. *)
Fixpoint py_max_from (cur : RCM) (l : list RCM) : RCM :=
  match l with
  | [] => cur
  | x :: rest => py_max_from (if rcm_lt cur x then x else cur) rest
  end.

(** The comprehension [[rcm for rcm in l if rcm]]. *)
Fixpoint prune (l : list (option RCM)) : list RCM :=
  match l with
  | [] => []
  | Some m :: rest => m :: prune rest
  | None :: rest => prune rest
  end.

(** [_get_best_rcm] *)
Definition _get_best_rcm (s : ConcurrencySearch) : option RCM :=
  let pruned_rcms :=
    prune (py_slice_from (_run_config_measurements s)
             (- Z.of_nat (THROUGHPUT_MINIMUM_CONSECUTIVE_CONCURRENCY_TRIES K))) in
  match pruned_rcms with
  | [] => None
  | x :: rest => Some (py_max_from x rest)
  end.

(** [_calculate_gain] *)
Definition _calculate_gain (s : ConcurrencySearch) : Res Q :=
  first_rcm <- py_getitem (_run_config_measurements s)
                 (- Z.of_nat (THROUGHPUT_MINIMUM_CONSECUTIVE_CONCURRENCY_TRIES K)) ;;
  let best_rcm := _get_best_rcm s in
  match first_rcm, best_rcm with
  | None, None => ok 0%Q
  | None, Some _ => ok 1%Q
  | Some _, None => ok (-1)%Q
  | Some f, Some b => ok (compare_measurements f b)
  end.

(** [_has_objective_gain_saturated] *)
Definition _has_objective_gain_saturated (s : ConcurrencySearch) : Res bool :=
  gain <- _calculate_gain s ;;
  ok (Qltb gain (THROUGHPUT_MINIMUM_GAIN K)).

(** [_should_continue_concurrency_sweep] *)
Definition _should_continue_concurrency_sweep (s : ConcurrencySearch) : Res bool :=
  _ <- _check_measurement_count s ;;
  if negb (_are_minimum_tries_reached s) then ok true
  else (sat <- _has_objective_gain_saturated s ;; ok (negb sat)).

(** The body of the loop of [_perform_concurrency_sweep], over the
    exponents that are left. *)
Fixpoint sweep_loop (idxs : list nat) (s : ConcurrencySearch)
  : Gen Z (list (option RCM)) ConcurrencySearch :=
  match idxs with
  | [] => Ret s
  | i :: rest =>
      let concurrency := 2 ^ Z.of_nat i in
      glift (_should_continue_concurrency_sweep s) (fun continue =>
        if continue : bool then
          let s' := set_concurrencies s (_concurrencies s ++ [concurrency]) in
          Yield concurrency (fun added => sweep_loop rest (add_all s' added))
        else Ret s)
  end.

(** [_perform_concurrency_sweep] *)
Definition _perform_concurrency_sweep (s : ConcurrencySearch)
  : Gen Z (list (option RCM)) ConcurrencySearch :=
  sweep_loop (py_range (_min_concurrency_index s)
                       (_max_concurrency_index s + 1)) s.

(** [_at_constraint_failure_boundary]; [or] and [and] evaluate their right
    operand only when needed. *)
Definition _at_constraint_failure_boundary
    (s : ConcurrencySearch) (index : nat) : Res bool :=
  later <- py_getitem (_run_config_measurements s) (Z.of_nat index) ;;
  match later with
  | None => ok false
  | Some l =>
      earlier <- py_getitem (_run_config_measurements s) (Z.of_nat index - 1) ;;
      match earlier with
      | None => ok false
      | Some e =>
          ok (negb (is_passing_constraints l) && is_passing_constraints e)
      end
  end.

(** How the [for] loop of [_was_constraint_violated] ends: by its
    [return True], or exhausted, leaving the loop variable [i] at its last
    value ([None]: never bound, the range was empty). *)
Inductive ScanExit : Type :=
| ScanReturned (s : ConcurrencySearch)
| ScanExhausted (i : option nat).

Fixpoint violation_scan (s : ConcurrencySearch) (idxs : list nat)
    (i : option nat) : Res ScanExit :=
  match idxs with
  | [] => ok (ScanExhausted i)
  | j :: rest =>
      b <- _at_constraint_failure_boundary s j ;;
      if b : bool then
        failing <- py_getitem (_concurrencies s) (Z.of_nat j) ;;
        passing <- py_getitem (_concurrencies s) (Z.of_nat j - 1) ;;
        ok (ScanReturned (set_last_passing (set_last_failing s failing) passing))
      else violation_scan s rest (Some j)
  end.

(** [_was_constraint_violated]: the truth value together with the object
    as the call leaves it. *)
Definition _was_constraint_violated (s : ConcurrencySearch)
  : Res (bool * ConcurrencySearch) :=
  r <- violation_scan s
         (py_range_down (length (_run_config_measurements s) - 1) 1) None ;;
  match r with
  | ScanReturned s' => ok (true, s')
  | ScanExhausted i =>
      first <- py_getitem (_run_config_measurements s) 0 ;;
      match first with
      | Some m =>
          if negb (is_passing_constraints m) then
            i' <- match i with
                  | Some j => ok j
                  | None => raise UnboundLocalError
                  end ;;
            failing <- py_getitem (_concurrencies s) (Z.of_nat i') ;;
            ok (true, set_last_passing (set_last_failing s failing) 0)
          else ok (false, s)
      | None => ok (false, s)
      end
  end.

(** [_determine_next_binary_concurrency] *)
Definition _determine_next_binary_concurrency (s : ConcurrencySearch)
  : Res (Z * ConcurrencySearch) :=
  last_rcm <- py_getitem (_run_config_measurements s) (-1) ;;
  match last_rcm with
  | None => ok (0, s)
  | Some m =>
      last <- py_getitem (_concurrencies s) (-1) ;;
      if is_passing_constraints m then
        let s' := set_last_passing s last in
        concurrency <- int_half (_last_failing_concurrency s' + last) ;;
        ok (concurrency, s')
      else
        let s' := set_last_failing s last in
        concurrency <- int_half (_last_passing_concurrency s' + last) ;;
        ok (concurrency, s')
  end.

(** The loop of [_perform_binary_concurrency_search], with [steps]
    iterations left. *)
Fixpoint binary_loop (steps : nat) (s : ConcurrencySearch)
  : Gen Z (list (option RCM)) ConcurrencySearch :=
  match steps with
  | O => Ret s
  | S n =>
      glift (_determine_next_binary_concurrency s) (fun '(concurrency, s1) =>
      glift (py_getitem (_concurrencies s1) (-1)) (fun last =>
        if negb (concurrency =? last) then
          let s2 := set_concurrencies s1 (_concurrencies s1 ++ [concurrency]) in
          Yield concurrency (fun added => binary_loop n (add_all s2 added))
        else binary_loop n s1))
  end.

(** [_perform_binary_concurrency_search] *)
Definition _perform_binary_concurrency_search (s : ConcurrencySearch)
  : Gen Z (list (option RCM)) ConcurrencySearch :=
  let s' := set_concurrencies s
              (_concurrencies s ++ [_last_failing_concurrency s]) in
  binary_loop (Z.to_nat (_max_binary_search_steps s')) s'.

(** [search_concurrencies] *)
Definition search_concurrencies (s : ConcurrencySearch)
  : Gen Z (list (option RCM)) ConcurrencySearch :=
  gbind (_perform_concurrency_sweep s) (fun s1 =>
  glift (_was_constraint_violated s1) (fun '(violated, s2) =>
    if violated : bool then _perform_binary_concurrency_search s2
    else Ret s2)).

(** Do the measurements at [index - 1] and [index] form a failure
    boundary: both present, the earlier passing, the later failing? *)
Definition failure_boundary_at (rcms : list (option RCM)) (index : nat) : bool :=
  match nth_error rcms index, nth_error rcms (index - 1) with
  | Some (Some later), Some (Some earlier) =>
      negb (is_passing_constraints later) && is_passing_constraints earlier
  | _, _ => false
  end.

(** The last tries, as [_get_best_rcm] slices them. *)
Definition last_tries (s : ConcurrencySearch) : list (option RCM) :=
  py_slice_from (_run_config_measurements s)
    (- Z.of_nat (THROUGHPUT_MINIMUM_CONSECUTIVE_CONCURRENCY_TRIES K)).

(** The measurement that many steps back, as [_calculate_gain] reads it. *)
Definition first_try (s : ConcurrencySearch) : Res (option RCM) :=
  py_getitem (_run_config_measurements s)
    (- Z.of_nat (THROUGHPUT_MINIMUM_CONSECUTIVE_CONCURRENCY_TRIES K)).

End Search.

Arguments ConcurrencySearch RCM : clear implicits.

(* ===================================================================== *)
(** ** A measurement that reports one throughput *)
(* ===================================================================== *)

(** Modelled from the spec: RunConfigMeasurement
    ([model_analyzer/result/run_config_measurement.py]) is not part of the
    sources at hand.  The specification describes a measurement as carrying a
    constraint-satisfaction predicate, an order, and a normalized fractional
    gain relative to a baseline; its examples use one throughput per
    measurement.  For one throughput objective RunConfigMeasurement orders
    measurements by throughput and reports as gain the difference of the two
    throughputs divided by their mean (2.5 / 51.25 for 52.5 against 50).
    Two throughputs of mean zero, a division by zero there, are outside this
    model. *)
Record ThroughputMeasurement : Type := {
  throughput : Q;
  passing : bool
}.

(** The gain of the throughput [other] over the throughput [self]. *)
Definition fractional_gain (self other : Q) : Q :=
  ((other - self) / ((self + other) / 2))%Q.

#[export] Instance ThroughputMeasurement_Measurement
  : Measurement ThroughputMeasurement := {
  is_passing_constraints := passing;
  rcm_lt := fun a b => Qltb (throughput a) (throughput b);
  compare_measurements := fun self other =>
    fractional_gain (throughput self) (throughput other)
}.

(** A passing measurement of the given throughput. *)
Definition pass_at (t : Q) : option ThroughputMeasurement :=
  Some {| throughput := t; passing := true |}.

(** A measurement of the given throughput that violates its constraint. *)
Definition fail_at (t : Q) : option ThroughputMeasurement :=
  Some {| throughput := t; passing := false |}.

(** The constants the specification's examples use. *)
Definition default_constants : Constants :=
  {| THROUGHPUT_MINIMUM_GAIN := 5 # 100;
     THROUGHPUT_MINIMUM_CONSECUTIVE_CONCURRENCY_TRIES := 4 |}.

(** A fresh search over the exponents [lo .. hi]. *)
Definition fresh_search {RCM} (lo hi : nat) (steps : Z) : ConcurrencySearch RCM :=
  {| _min_concurrency_index := lo;
     _max_concurrency_index := hi;
     _max_binary_search_steps := steps;
     _run_config_measurements := [];
     _concurrencies := [];
     _last_failing_concurrency := 0;
     _last_passing_concurrency := 0 |}.

(** The lockstep caller: one measurement after every yield. *)
Definition lockstep {RCM} (ms : list (option RCM)) : list (list (option RCM)) :=
  map (fun m => [m]) ms.

(** A search that emitted [concs] and was fed [rcms]. *)
Definition search_after {RCM} (lo hi : nat) (steps : Z)
    (concs : list Z) (rcms : list (option RCM)) : ConcurrencySearch RCM :=
  {| _min_concurrency_index := lo;
     _max_concurrency_index := hi;
     _max_binary_search_steps := steps;
     _run_config_measurements := rcms;
     _concurrencies := concs;
     _last_failing_concurrency := 0;
     _last_passing_concurrency := 0 |}.

(** The sweep over 1, 2, 4, 8, 16 after four passing measurements of
    throughput 50, 50, 50 and [t]. *)
Definition plateau_history (t : Q) : ConcurrencySearch ThroughputMeasurement :=
  search_after 0 4 5 [1; 2; 4; 8] [pass_at 50; pass_at 50; pass_at 50; pass_at t].

(* ===================================================================== *)
(** ** brute_plus_binary_parameter_search_run_config_generator.py *)
(* ===================================================================== *)

(** A perf_config as the generator uses it: a dictionary of arguments. *)
Definition PerfConfig : Type := list (string * Z).

(** [perf_config.update_config({key: v})] *)
Fixpoint update_config (p : PerfConfig) (key : string) (v : Z) : PerfConfig :=
  match p with
  | [] => [(key, v)]
  | (k, w) :: rest =>
      if String.eqb k key then (k, v) :: rest
      else (k, w) :: update_config rest key v
  end.

(** A RunConfig: the perf_config of each of its model_run_configs. *)
Definition RunConfig : Type := list PerfConfig.

(** What the generator reads of a ModelProfileSpec:
    [model_config_parameters()] is [None] or a dictionary. *)
Record ModelProfileSpec : Type := {
  model_name : string;
  model_config_parameters : option (list (string * list Z))
}.

(** Truth value of [None] or a dictionary. *)
Definition truthy_dict {A} (d : option (list A)) : bool :=
  match d with
  | None => false
  | Some [] => false
  | Some (_ :: _) => true
  end.

Section BrutePlus.

Context {RCM : Type} `{M : Measurement RCM}.
Variable K : Constants.

(** The caller answers a yield by calling [set_last_results(measurements)]. *)
Definition Feedback : Type := list (option RCM).

(** The attributes of the generator and its collaborators.  [brute] is the
    generator [BruteRunConfigGenerator.get_configs()] returns; it is resumed
    with the measurements [set_last_results] forwards to it.
    [get_model_names] and [top_n_results] are the result manager's answers.
    [new_search] is what instantiating the search does; the generator of
    the sources is the one at [ConcurrencySearch_skip_parameter_sweep]
    below, the call as the sources make it. *)
Variable config : ConfigCommandProfile.
Variable models : list ModelProfileSpec.
Variable brute : Gen RunConfig Feedback unit.
Variable get_model_names : list string.
Variable top_n_results : string -> list RunConfig.
Variable new_search : ConfigCommandProfile -> Res (ConcurrencySearch RCM).

(** [set_last_results]: [self._last_measurement = measurements[-1]].  An
    empty list raises in the caller and leaves the attribute as it was;
    [None] here stands for an attribute that was never assigned. *)
Definition set_last_measurement
    (last : option (option RCM)) (measurements : Feedback)
  : option (option RCM) :=
  match py_getitem measurements (-1) with
  | inr m => Some m
  | inl _ => last
  end.

(** [_is_automatic_search_mode] *)
Fixpoint _is_automatic_search_mode (ms : list ModelProfileSpec) : bool :=
  match ms with
  | [] => true
  | model :: rest =>
      if truthy_dict (model_config_parameters model) then false
      else _is_automatic_search_mode rest
  end.

(** [_execute_brute_search]: [yield from self._rcg.get_configs()], every
    resumption passing through [set_last_results]. *)
Fixpoint _execute_brute_search (rcg : Gen RunConfig Feedback unit)
    (last : option (option RCM))
  : Gen RunConfig Feedback (option (option RCM)) :=
  match rcg with
  | Ret _ => Ret last
  | Raise e => Raise e
  | Yield run_config k =>
      Yield run_config (fun measurements =>
        _execute_brute_search (k measurements)
          (set_last_measurement last measurements))
  end.

(** [_set_concurrency] *)
Definition _set_concurrency (run_config : RunConfig) (concurrency : Z)
  : RunConfig :=
  map (fun perf_config =>
         update_config perf_config "concurrency-range"%string concurrency)
      run_config.

(** The innermost loop of [_binary_search_over_top_results]:
    [for concurrency in concurrency_search.search_concurrencies()]. *)
Fixpoint search_loop
    (search : Gen Z (list (option RCM)) (ConcurrencySearch RCM))
    (run_config : RunConfig) (last : option (option RCM))
  : Gen RunConfig Feedback (option (option RCM)) :=
  match search with
  | Ret _ => Ret last
  | Raise e => Raise e
  | Yield concurrency k =>
      let run_config' := _set_concurrency run_config concurrency in
      Yield run_config' (fun measurements =>
        match set_last_measurement last measurements with
        | None => Raise AttributeError
        | Some m => search_loop (k [m]) run_config' (Some m)
        end)
  end.

(** [for result in top_results] *)
Fixpoint results_loop (top_results : list RunConfig)
    (last : option (option RCM))
  : Gen RunConfig Feedback (option (option RCM)) :=
  match top_results with
  | [] => Ret last
  | result :: rest =>
      glift (new_search config) (fun concurrency_search =>
        gbind (search_loop (search_concurrencies K concurrency_search)
                 result last)
              (results_loop rest))
  end.

(** [for model_name in self._result_manager.get_model_names()] *)
Fixpoint models_loop (names : list string) (last : option (option RCM))
  : Gen RunConfig Feedback (option (option RCM)) :=
  match names with
  | [] => Ret last
  | name :: rest =>
      gbind (results_loop (top_n_results name) last) (models_loop rest)
  end.

(** [_binary_search_over_top_results] *)
Definition _binary_search_over_top_results (last : option (option RCM))
  : Gen RunConfig Feedback (option (option RCM)) :=
  models_loop get_model_names last.

(** What follows the brute search in [get_configs]. *)
Definition after_brute_search (last : option (option RCM))
  : Gen RunConfig Feedback unit :=
  if _is_automatic_search_mode models
  then gbind (_binary_search_over_top_results last) (fun _ => Ret tt)
  else Ret tt.

(** [get_configs] *)
Definition get_configs : Gen RunConfig Feedback unit :=
  gbind (_execute_brute_search brute None) after_brute_search.

End BrutePlus.

(** The call [ConcurrencySearch(self._config, skip_parameter_sweep=True)]
    of [_binary_search_over_top_results], against the constructor
    [__init__(self, config)] of concurrency_search.py: an unexpected keyword
    argument, which raises TypeError before the constructor's body runs. *)
Definition ConcurrencySearch_skip_parameter_sweep {RCM}
    (config : ConfigCommandProfile) : Res (ConcurrencySearch RCM) :=
  raise TypeError.

(** [_binary_search_over_top_results] and [get_configs] as the sources have
    them. *)
Definition _binary_search_over_top_results_src {RCM} `{Measurement RCM}
    (K : Constants) (config : ConfigCommandProfile)
    (get_model_names : list string) (top_n_results : string -> list RunConfig)
    (last : option (option RCM))
  : Gen RunConfig (@Feedback RCM) (option (option RCM)) :=
  _binary_search_over_top_results K config get_model_names top_n_results
    ConcurrencySearch_skip_parameter_sweep last.

Definition get_configs_src {RCM} `{Measurement RCM}
    (K : Constants) (config : ConfigCommandProfile)
    (models : list ModelProfileSpec)
    (brute : Gen RunConfig (@Feedback RCM) unit)
    (get_model_names : list string) (top_n_results : string -> list RunConfig)
  : Gen RunConfig (@Feedback RCM) unit :=
  get_configs K config models brute get_model_names top_n_results
    ConcurrencySearch_skip_parameter_sweep.

(* ===================================================================== *)
(** ** config_range_numeric.py: ConfigRangeNumeric.set_value *)
(* ===================================================================== *)

#[local] Set Warnings "-register-all".

(** The Python values a range field is set from. *)
Inductive PyVal : Type :=
| PNone
| PInt (z : Z)
| PStr (s : string)
| PList (l : list PyVal)
| PDict (items : list (string * PyVal)).

(** [s.split(sep)] for a one-character separator. *)
Fixpoint split_on (sep : ascii) (s : string) : list string :=
  match s with
  | EmptyString => [EmptyString]
  | String c rest =>
      if Ascii.eqb c sep then EmptyString :: split_on sep rest
      else match split_on sep rest with
           | [] => [String c EmptyString]
           | w :: ws => String c w :: ws
           end
  end.

(** [c in s] for a character. *)
Fixpoint contains_char (c : ascii) (s : string) : bool :=
  match s with
  | EmptyString => false
  | String d rest => Ascii.eqb c d || contains_char c rest
  end.

Definition is_space (c : ascii) : bool :=
  let n := nat_of_ascii c in
  ((9 <=? n) && (n <=? 13))%nat || (n =? 32)%nat.

Definition digit_of (c : ascii) : option Z :=
  let n := nat_of_ascii c in
  if ((48 <=? n) && (n <=? 57))%nat then Some (Z.of_nat (n - 48)) else None.

Fixpoint lstrip (s : string) : string :=
  match s with
  | String c rest => if is_space c then lstrip rest else s
  | EmptyString => s
  end.

(** Is the string made of whitespace only? *)
Fixpoint all_space (s : string) : bool :=
  match s with
  | EmptyString => true
  | String c rest => is_space c && all_space rest
  end.

(** Digits of an integer literal, with the value read so far; an
    underscore is allowed between two digits, whitespace may trail. *)
Fixpoint int_digits (acc : Z) (s : string) : option Z :=
  match s with
  | EmptyString => Some acc
  | String c rest =>
      match digit_of c with
      | Some d => int_digits (10 * acc + d) rest
      | None =>
          if Ascii.eqb c "_"%char then
            match rest with
            | String c' rest' =>
                match digit_of c' with
                | Some d => int_digits (10 * acc + d) rest'
                | None => None
                end
            | EmptyString => None
            end
          else if all_space s then Some acc else None
      end
  end.

(** The digits must start with a digit. *)
Definition int_unsigned (s : string) : option Z :=
  match s with
  | String c rest =>
      match digit_of c with
      | Some d => int_digits d rest
      | None => None
      end
  | EmptyString => None
  end.

(** [int(s)] for a string: ValueError unless [s] is a decimal literal.
    Strings are sequences of ASCII characters here; the whitespace and
    digits of other scripts that [int] also accepts are not modelled. *)
Definition int_of_string (s : string) : Res Z :=
  let r :=
    match lstrip s with
    | String "-"%char rest => option_map Z.opp (int_unsigned rest)
    | String "+"%char rest => int_unsigned rest
    | t => int_unsigned t
    end in
  match r with
  | Some z => ok z
  | None => raise ValueError
  end.

(** [int(v)]: a TypeError for what is neither a number nor a string. *)
Definition py_int (v : PyVal) : Res Z :=
  match v with
  | PInt z => ok z
  | PStr s => int_of_string s
  | PNone | PList _ | PDict _ => raise TypeError
  end.

(** [f"{z}"] for an integer. *)
Definition str_of_int (z : Z) : string :=
  DecimalString.NilZero.string_of_int (Z.to_int z).

(** [key in d] and [d[key]] for a dictionary with string keys. *)
Fixpoint dict_get (d : list (string * PyVal)) (key : string) : option PyVal :=
  match d with
  | [] => None
  | (k, v) :: rest => if String.eqb k key then Some v else dict_get rest key
  end.

Definition dict_has (d : list (string * PyVal)) (key : string) : bool :=
  match dict_get d key with
  | Some _ => true
  | None => false
  end.

(** The places [set_value] returns a ConfigStatus from. *)
Inductive FailureReason : Type :=
| string_without_colon
| string_not_start_stop_step
| start_after_stop
| dict_keys_not_start_stop_step
| value_error_caught
| not_a_list.

Inductive ConfigStatus : Type :=
| CONFIG_PARSER_SUCCESS
| CONFIG_PARSER_FAILURE (why : FailureReason).

Section RangeNumeric.

Local Open Scope res_scope.
Local Open Scope string_scope.

(** [self._type], the constructor's [type_]. *)
Variable type_ : PyVal -> Res PyVal.

(** The default validator of [__init__]: [type(x) is list]. *)
Definition validator (x : PyVal) : ConfigStatus :=
  match x with
  | PList _ => CONFIG_PARSER_SUCCESS
  | _ => CONFIG_PARSER_FAILURE not_a_list
  end.

(** Modelled from the spec: [ConfigValue.set_value]
    ([model_analyzer/config/input/config_value.py]) is not part of the
    sources at hand.  The field is built without a preprocess function and
    with the default validator above: the value is validated, stored when
    valid, and the validator's status is returned.  The result is the status
    and the field's [_value]. *)
Definition ConfigValue_set_value (self_value : PyVal) (value : PyVal)
  : ConfigStatus * PyVal :=
  match validator value with
  | CONFIG_PARSER_SUCCESS => (CONFIG_PARSER_SUCCESS, value)
  | CONFIG_PARSER_FAILURE why => (CONFIG_PARSER_FAILURE why, self_value)
  end.

(** The branch [if self._is_dict(value)] of [set_value]. *)
Definition set_value_dict (self_value : PyVal) (value : list (string * PyVal))
  : Res (ConfigStatus * PyVal) :=
  let two_key_condition :=
    (length value =? 2)%nat && dict_has value "start" && dict_has value "stop" in
  let three_key_condition :=
    (length value =? 3)%nat && dict_has value "start" && dict_has value "stop"
    && dict_has value "step" in
  if two_key_condition || three_key_condition then
    start <- py_int (match dict_get value "start" with Some v => v | None => PNone end) ;;
    stop <- py_int (match dict_get value "stop" with Some v => v | None => PNone end) ;;
    step <- match dict_get value "step" with
            | None => ok 1
            | Some v => py_int v
            end ;;
    if start >? stop then
      ok (CONFIG_PARSER_FAILURE start_after_stop, self_value)
    else
      let new_value :=
        PList [PStr (str_of_int start ++ ":" ++ str_of_int stop ++ ":"
                     ++ str_of_int step)] in
      ok (ConfigValue_set_value self_value new_value)
  else ok (CONFIG_PARSER_FAILURE dict_keys_not_start_stop_step, self_value).

(** [except ValueError]: a ValueError becomes a failure status, any other
    exception propagates.  [self_value] is the field's [_value] when the
    exception was raised. *)
Definition catch_value_error (self_value : PyVal)
    (r : Res (ConfigStatus * PyVal)) : Res (ConfigStatus * PyVal) :=
  match r with
  | inl ValueError => ok (CONFIG_PARSER_FAILURE value_error_caught, self_value)
  | other => other
  end.

(** [set_value]: the status returned and the field's [_value] afterwards. *)
Definition set_value (self_value : PyVal) (value : PyVal)
  : Res (ConfigStatus * PyVal) :=
  match value with
  | PStr s =>
      if negb (contains_char ":" s) then
        ok (CONFIG_PARSER_FAILURE string_without_colon, self_value)
      else
        let self_value := PList [] in
        match split_on ":" s with
        | [a; b] =>
            catch_value_error self_value
              (set_value_dict self_value
                 [("start", PStr a); ("stop", PStr b); ("step", PInt 1)])
        | [a; b; c] =>
            catch_value_error self_value
              (set_value_dict self_value
                 [("start", PStr a); ("stop", PStr b); ("step", PStr c)])
        | _ => ok (CONFIG_PARSER_FAILURE string_not_start_stop_step, self_value)
        end
  | PDict d => catch_value_error self_value (set_value_dict self_value d)
  | PList _ => ok (ConfigValue_set_value self_value value)
  | _ =>
      catch_value_error self_value
        (v <- type_ value ;; ok (ConfigValue_set_value self_value (PList [v])))
  end.

End RangeNumeric.

(* ===================================================================== *)
(** ** Notions the properties are stated with *)
(* ===================================================================== *)



(** No two neighbours of the list are equal. *)
Fixpoint adjacent_distinct (l : list Z) : Prop :=
  match l with
  | a :: (b :: _) as rest => a <> b /\ adjacent_distinct rest
  | _ => True
  end.

(** Each measurement that is present passes its constraints. *)
Definition all_present_pass {RCM} `{Measurement RCM}
    (rcms : list (option RCM)) : Prop :=
  Forall (fun m => match m with
                   | Some x => is_passing_constraints x = true
                   | None => True
                   end) rcms.

(** The text ["start:stop:step"] of three integers. *)
Definition range_string (start stop step : Z) : string :=
  (str_of_int start ++ ":" ++ str_of_int stop ++ ":" ++ str_of_int step)%string.

(** [d.get(key)] for a perf_config. *)
Fixpoint perf_get (p : PerfConfig) (key : string) : option Z :=
  match p with
  | [] => None
  | (k, v) :: rest => if String.eqb k key then Some v else perf_get rest key
  end.

(* ===================================================================== *)
(** * Properties *)
(* ===================================================================== *)

(** ** Generators *)

Section GenFacts.

Context {Y R : Type}.

(** A run of [yield from g] followed by [f] is the run of [g] and, when that
    finishes, the run of [f] against what is left of the script. *)
Lemma run_gbind {A B} (g : Gen Y R A) (f : A -> Gen Y R B) :
  forall script,
    run (gbind g f) script =
    match run g script with
    | (ys, Finished a) =>
        let (zs, o) := run (f a) (skipn (length ys) script) in (ys ++ zs, o)
    | (ys, Raised e) => (ys, Raised e)
    | (ys, Suspended) => (ys, Suspended)
    end.
Proof.
  induction g as [a | e | y k IH]; intros script; simpl.
  - destruct (run (f a) script); reflexivity.
  - reflexivity.
  - destruct script as [| r rs]; [reflexivity |].
    rewrite IH. destruct (run (k r) rs) as [ys [a | e |]]; simpl; try reflexivity.
    destruct (run (f a) (skipn (length ys) rs)); reflexivity.
Qed.

Lemma run_glift_raise {A B} (e : Exn) (f : A -> Gen Y R B) script :
  run (glift (raise e) f) script = ([], Raised e).
Proof. reflexivity. Qed.

Lemma yields_le_mono {A} (g : Gen Y R A) :
  forall n m, yields_le n g -> (n <= m)%nat -> yields_le m g.
Proof.
  induction g as [a | e | y k IH]; intros n m Hg Hle.
  - constructor.
  - constructor.
  - inversion Hg as [| | n' y' k' Hk]; subst.
    destruct m as [| m']; [lia |].
    constructor. intros r. apply (IH r n'); [apply Hk | lia].
Qed.

Lemma yields_le_gbind {A B} (g : Gen Y R A) (f : A -> Gen Y R B) :
  forall n m,
    yields_le n g -> (forall a, yields_le m (f a)) ->
    yields_le (n + m) (gbind g f).
Proof.
  induction g as [a | e | y k IH]; intros n m Hg Hf; simpl.
  - apply yields_le_mono with (n := m); [apply Hf | lia].
  - constructor.
  - inversion Hg as [| | n' y' k' Hk]; subst. simpl.
    constructor. intros r. apply IH; [apply Hk | exact Hf].
Qed.

Lemma yields_le_gbind_sat {A B} (P : A -> Prop)
    (g : Gen Y R A) (f : A -> Gen Y R B) :
  forall n m,
    yields_le n g -> returns_sat P g -> (forall a, P a -> yields_le m (f a)) ->
    yields_le (n + m) (gbind g f).
Proof.
  induction g as [a | e | y k IH]; intros n m Hg HP Hf; simpl in *.
  - apply yields_le_mono with (n := m); [apply Hf, HP | lia].
  - constructor.
  - inversion Hg as [| | n' y' k' Hk]; subst. simpl.
    constructor. intros r. apply IH; [apply Hk | apply HP | exact Hf].
Qed.

Lemma returns_sat_glift {A B} (P : B -> Prop) (r : Res A) (f : A -> Gen Y R B) :
  (forall a, r = ok a -> returns_sat P (f a)) -> returns_sat P (glift r f).
Proof.
  intros Hf. destruct r as [e | a]; simpl; [exact I | apply Hf; reflexivity].
Qed.

Lemma yields_le_glift {A B} (r : Res A) (f : A -> Gen Y R B) n :
  (forall a, yields_le n (f a)) -> yields_le n (glift r f).
Proof.
  intros Hf. destruct r as [e | a]; simpl; [constructor | apply Hf].
Qed.

(** A bound on the yields of a generator bounds what any caller sees. *)
Lemma yields_le_emitted {A} (g : Gen Y R A) :
  forall n script, yields_le n g -> (length (emitted g script) <= n)%nat.
Proof.
  unfold emitted.
  induction g as [a | e | y k IH]; intros n script Hg; simpl.
  - lia.
  - lia.
  - inversion Hg as [| | n' y' k' Hk]; subst.
    destruct script as [| r rs]; simpl; [lia |].
    specialize (IH r n' rs (Hk r)).
    destruct (run (k r) rs) as [ys o]; simpl in *. lia.
Qed.

End GenFacts.

(** ** Python lists *)

(** The float division at a few integers: exact below 2^53, rounded to
    even from there on, an overflow beyond the floats. *)
Lemma int_half_examples :
  int_half 7 = ok 3 /\ int_half (-7) = ok (-3) /\
  int_half (2 ^ 53 + 3) = ok (2 ^ 52 + 2) /\
  int_half (2 ^ 54 + 2) = ok (2 ^ 53) /\
  int_half (2 ^ 1100 + 2 ^ 1099) = raise OverflowError.
Proof. vm_compute. repeat split. Qed.

Lemma py_getitem_nonneg {A} (l : list A) (i : nat) (a : A) :
  nth_error l i = Some a -> py_getitem l (Z.of_nat i) = ok a.
Proof.
  intros H. unfold py_getitem.
  assert (Hlt : (i < length l)%nat) by (apply nth_error_Some; congruence).
  destruct (Z.ltb_spec (Z.of_nat i) 0); [lia |].
  destruct (Z.ltb_spec (Z.of_nat i) 0); [lia |].
  destruct (Z.leb_spec (Z.of_nat (length l)) (Z.of_nat i)); [lia |].
  simpl. rewrite Nat2Z.id, H. reflexivity.
Qed.

Lemma py_getitem_pred {A} (l : list A) (i : nat) (a : A) :
  (1 <= i)%nat -> nth_error l (i - 1) = Some a ->
  py_getitem l (Z.of_nat i - 1) = ok a.
Proof.
  intros Hi H. replace (Z.of_nat i - 1) with (Z.of_nat (i - 1)) by lia.
  apply py_getitem_nonneg. exact H.
Qed.

(** Counting [n >= 1] from the end of a list that long. *)
Lemma py_getitem_from_end {A} (l : list A) (n : nat) :
  (1 <= n <= length l)%nat ->
  py_getitem l (- Z.of_nat n) =
  match nth_error l (length l - n) with
  | Some a => ok a
  | None => raise IndexError
  end.
Proof.
  intros Hn. unfold py_getitem.
  destruct (Z.ltb_spec (- Z.of_nat n) 0); [| lia].
  destruct (Z.ltb_spec (- Z.of_nat n + Z.of_nat (length l)) 0); [lia |].
  destruct (Z.leb_spec (Z.of_nat (length l))
              (- Z.of_nat n + Z.of_nat (length l))); [lia |].
  simpl.
  replace (Z.to_nat (- Z.of_nat n + Z.of_nat (length l)))
    with (length l - n)%nat by lia.
  reflexivity.
Qed.





(** ** The concurrency search, for any kind of measurement *)

Section SearchFacts.

Context {RCM : Type} `{M : Measurement RCM}.
Variable K : Constants.

Abbreviation N := (THROUGHPUT_MINIMUM_CONSECUTIVE_CONCURRENCY_TRIES K).
Abbreviation MIN_GAIN := (THROUGHPUT_MINIMUM_GAIN K).

Lemma prune_nil (l : list (option RCM)) :
  prune l = [] <-> Forall (fun m => m = None) l.
Proof.
  induction l as [| [m |] rest IH]; simpl.
  - split; [constructor | reflexivity].
  - split; [discriminate | intros H; inversion H; discriminate].
  - rewrite IH. split; [constructor; auto | intros H; inversion H; auto].
Qed.

Lemma prune_In (l : list (option RCM)) (m : RCM) :
  In m (prune l) <-> In (Some m) l.
Proof.
  induction l as [| [x |] rest IH]; simpl.
  - tauto.
  - rewrite IH. split; intros [H | H]; auto; left; congruence.
  - rewrite IH. split; [auto | intros [H | H]; [discriminate | auto]].
Qed.

Lemma py_max_from_In (l : list RCM) :
  forall cur, py_max_from cur l = cur \/ In (py_max_from cur l) l.
Proof.
  induction l as [| x rest IH]; intros cur; simpl; [auto |].
  destruct (IH (if rcm_lt cur x then x else cur)) as [H | H]; [| auto].
  rewrite H. destruct (rcm_lt cur x); auto.
Qed.

(** The best of the last tries is absent exactly when all of them are. *)
Lemma get_best_rcm_none (s : ConcurrencySearch RCM) :
  _get_best_rcm K s = None <-> Forall (fun m => m = None) (last_tries K s).
Proof.
  unfold _get_best_rcm, last_tries. rewrite <- prune_nil.
  destruct (prune _); split; congruence.
Qed.

(** The best of the last tries is one of them. *)
Lemma get_best_rcm_In (s : ConcurrencySearch RCM) (b : RCM) :
  _get_best_rcm K s = Some b -> In (Some b) (last_tries K s).
Proof.
  unfold _get_best_rcm, last_tries. intros H. apply prune_In.
  destruct (prune _) as [| x rest]; [discriminate |].
  injection H as <-. destruct (py_max_from_In rest x) as [-> | Hin];
    [left; reflexivity | right; exact Hin].
Qed.


Lemma Qltb_0_gain : (0 < MIN_GAIN)%Q -> Qltb 0 MIN_GAIN = true.
Proof.
  intros H. unfold Qltb. destruct (Qle_bool MIN_GAIN 0) eqn:E; [| reflexivity].
  apply Qle_bool_iff in E. exfalso. apply (Qlt_not_le _ _ H E).
Qed.

Lemma Qltb_m1_gain : (0 < MIN_GAIN)%Q -> Qltb (-1) MIN_GAIN = true.
Proof.
  intros H. unfold Qltb. destruct (Qle_bool MIN_GAIN (-1)) eqn:E; [| reflexivity].
  apply Qle_bool_iff in E. exfalso.
  apply (Qlt_not_le _ _ H). apply Qle_trans with (y := (-1)%Q); [exact E |].
  discriminate.
Qed.

Lemma Qltb_1_gain : (MIN_GAIN <= 1)%Q -> Qltb 1 MIN_GAIN = false.
Proof.
  intros H. unfold Qltb. apply Qle_bool_iff in H. rewrite H. reflexivity.
Qed.

Lemma should_continue_of_gain (s : ConcurrencySearch RCM) (g : Q) :
  length (_run_config_measurements s) = length (_concurrencies s) ->
  (N <= length (_run_config_measurements s))%nat ->
  _calculate_gain K s = ok g ->
  _should_continue_concurrency_sweep K s = ok (negb (Qltb g MIN_GAIN)).
Proof.
  intros Hcount Hlen Hg.
  unfold _should_continue_concurrency_sweep, _check_measurement_count,
    _are_minimum_tries_reached, _has_objective_gain_saturated.
  destruct (Nat.ltb_spec (length (_run_config_measurements s)) N); [lia |].
  rewrite Hcount, Nat.eqb_refl. simpl. rewrite Hg. reflexivity.
Qed.

(** *** Gain with absent endpoints *)

(** C7: with at least MIN_CONSECUTIVE_TRIES measurements fed back (as many
    as configurations emitted, and a threshold in (0, 1]): when both the
    measurement MIN_CONSECUTIVE_TRIES steps back and the best of the last
    tries are absent the gain is 0 and the sweep stops; when only the older
    one is absent the gain is 1 and the sweep continues; when only the newer
    one is absent the gain is -1 and the sweep stops; the best of the last
    tries depends on the present entries only, is one of them, and is absent
    exactly when all the last tries are. *)
Theorem calculate_gain_absent_endpoints (s : ConcurrencySearch RCM) :
  (N <= length (_run_config_measurements s))%nat ->
  length (_run_config_measurements s) = length (_concurrencies s) ->
  (0 < MIN_GAIN)%Q ->
  (MIN_GAIN <= 1)%Q ->
  (first_try K s = ok None -> _get_best_rcm K s = None ->
     _calculate_gain K s = ok 0%Q /\
     _should_continue_concurrency_sweep K s = ok false) /\
  (forall b, first_try K s = ok None -> _get_best_rcm K s = Some b ->
     _calculate_gain K s = ok 1%Q /\
     _should_continue_concurrency_sweep K s = ok true) /\
  (forall f, first_try K s = ok (Some f) -> _get_best_rcm K s = None ->
     _calculate_gain K s = ok (-1)%Q /\
     _should_continue_concurrency_sweep K s = ok false) /\
  (forall s', prune (last_tries K s') = prune (last_tries K s) ->
     _get_best_rcm K s' = _get_best_rcm K s) /\
  (forall b, _get_best_rcm K s = Some b -> In (Some b) (last_tries K s)) /\
  (_get_best_rcm K s = None <-> Forall (fun m => m = None) (last_tries K s)).
Proof.
  intros Hlen Hcount Hpos Hle1.
  assert (Hgain : forall first best g,
             first_try K s = ok first -> _get_best_rcm K s = best ->
             match first, best with
             | None, None => ok 0%Q
             | None, Some _ => ok 1%Q
             | Some _, None => ok (-1)%Q
             | Some f, Some b => ok (compare_measurements f b)
             end = ok g ->
             _calculate_gain K s = ok g).
  { intros first best g Hf Hb Hg. unfold _calculate_gain.
    unfold first_try in Hf. rewrite Hf. simpl. rewrite Hb. exact Hg. }
  repeat split.
  - apply (Hgain None None); auto.
  - rewrite (should_continue_of_gain s 0%Q Hcount Hlen).
    + rewrite Qltb_0_gain by exact Hpos. reflexivity.
    + apply (Hgain None None); auto.
  - apply (Hgain None (Some b)); auto.
  - rewrite (should_continue_of_gain s 1%Q Hcount Hlen).
    + rewrite Qltb_1_gain by exact Hle1. reflexivity.
    + apply (Hgain None (Some b)); auto.
  - apply (Hgain (Some f) None); auto.
  - rewrite (should_continue_of_gain s (-1)%Q Hcount Hlen).
    + rewrite Qltb_m1_gain by exact Hpos. reflexivity.
    + apply (Hgain (Some f) None); auto.
  - intros s' Hs'. unfold _get_best_rcm. fold (last_tries K s').
    fold (last_tries K s). rewrite Hs'. reflexivity.
  - apply get_best_rcm_In.
  - apply get_best_rcm_none.
  - apply get_best_rcm_none.
Qed.


(** *** The measurement count *)

(** C5: whenever the sweep is about to decide on its next emission and the
    number of measurements fed back differs from the number of
    configurations emitted, the decision raises
    TritonModelAnalyzerException; the sweep, and a search whose sweep has an
    exponent left, end with that exception at once and emit nothing more,
    whatever the caller would answer. *)
Theorem measurement_count_mismatch_is_fatal
    (s : ConcurrencySearch RCM) (i : nat) (rest : list nat) :
  length (_run_config_measurements s) <> length (_concurrencies s) ->
  _should_continue_concurrency_sweep K s = raise TritonModelAnalyzerException /\
  (forall script,
     run (sweep_loop K (i :: rest) s) script
     = ([], Raised TritonModelAnalyzerException)) /\
  (forall script,
     (_min_concurrency_index s <= _max_concurrency_index s)%nat ->
     run (search_concurrencies K s) script
     = ([], Raised TritonModelAnalyzerException)).
Proof.
  intros Hne.
  assert (Hc : _should_continue_concurrency_sweep K s
               = raise TritonModelAnalyzerException).
  { unfold _should_continue_concurrency_sweep, _check_measurement_count.
    apply Nat.eqb_neq in Hne. rewrite Hne. reflexivity. }
  assert (Hsweep : forall j more script,
             run (sweep_loop K (j :: more) s) script
             = ([], Raised TritonModelAnalyzerException)).
  { intros j more script. simpl. rewrite Hc. reflexivity. }
  repeat split; auto.
  intros script Hrange.
  unfold search_concurrencies, _perform_concurrency_sweep, py_range.
  rewrite run_gbind.
  replace (_max_concurrency_index s + 1 - _min_concurrency_index s)%nat
    with (S (_max_concurrency_index s - _min_concurrency_index s)) by lia.
  simpl seq. rewrite Hsweep. reflexivity.
Qed.

(** *** The number of proposals *)

Lemma sweep_loop_yields (idxs : list nat) :
  forall s, yields_le (length idxs) (sweep_loop K idxs s).
Proof.
  induction idxs as [| i rest IH]; intros s; simpl.
  - constructor.
  - apply yields_le_glift. intros [|].
    + constructor. intros added. apply IH.
    + constructor.
Qed.

Lemma binary_loop_yields (steps : nat) :
  forall s, yields_le steps (binary_loop steps s).
Proof.
  induction steps as [| n IH]; intros s; simpl.
  - constructor.
  - apply yields_le_glift. intros [c s1].
    apply yields_le_glift. intros last.
    destruct (negb (c =? last)).
    + constructor. intros added. apply IH.
    + apply yields_le_mono with (n := n); [apply IH | lia].
Qed.

Lemma add_all_steps (ms : list (option RCM)) :
  forall s, _max_binary_search_steps (add_all s ms) = _max_binary_search_steps s.
Proof.
  unfold add_all.
  induction ms as [| m rest IH]; intros s; simpl; [reflexivity |].
  rewrite IH. reflexivity.
Qed.

Lemma sweep_loop_steps (idxs : list nat) :
  forall s,
    returns_sat
      (fun s' => _max_binary_search_steps s' = _max_binary_search_steps s)
      (sweep_loop K idxs s).
Proof.
  induction idxs as [| i rest IH]; intros s; simpl; [reflexivity |].
  apply returns_sat_glift. intros [|] _; simpl; [| reflexivity].
  intros added.
  specialize (IH (add_all (set_concurrencies s (_concurrencies s ++ [2 ^ Z.of_nat i]))
                    added)).
  rewrite add_all_steps in IH. exact IH.
Qed.

Lemma violation_scan_steps (s : ConcurrencySearch RCM) (idxs : list nat) :
  forall i s',
    violation_scan s idxs i = ok (ScanReturned s') ->
    _max_binary_search_steps s' = _max_binary_search_steps s.
Proof.
  induction idxs as [| j rest IH]; intros i s' H; simpl in H; [discriminate |].
  destruct (_at_constraint_failure_boundary s j) as [e | [|]]; simpl in H;
    try discriminate.
  - destruct (py_getitem (_concurrencies s) (Z.of_nat j)) as [e | f];
      simpl in H; [discriminate |].
    destruct (py_getitem (_concurrencies s) (Z.of_nat j - 1)) as [e | p];
      simpl in H; [discriminate |].
    injection H as <-. reflexivity.
  - apply (IH _ _ H).
Qed.

Lemma was_constraint_violated_steps (s s' : ConcurrencySearch RCM) (v : bool) :
  _was_constraint_violated s = ok (v, s') ->
  _max_binary_search_steps s' = _max_binary_search_steps s.
Proof.
  unfold _was_constraint_violated. intros H.
  destruct (violation_scan s _ None) as [e | [s1 | i]] eqn:Hscan; simpl in H;
    try discriminate.
  - injection H as _ <-. apply (violation_scan_steps _ _ _ _ Hscan).
  - destruct (py_getitem (_run_config_measurements s) 0) as [e | [m |]];
      simpl in H; try discriminate.
    + destruct (negb (is_passing_constraints m)); simpl in H.
      * destruct i as [j |]; simpl in H; [| discriminate].
        destruct (py_getitem (_concurrencies s) (Z.of_nat j)) as [e | f];
          simpl in H; [discriminate |].
        injection H as _ <-. reflexivity.
      * injection H as _ <-. reflexivity.
    + injection H as _ <-. reflexivity.
Qed.

Lemma search_concurrencies_yields (s : ConcurrencySearch RCM) :
  yields_le
    ((_max_concurrency_index s + 1 - _min_concurrency_index s)
     + Z.to_nat (_max_binary_search_steps s))
    (search_concurrencies K s).
Proof.
  unfold search_concurrencies.
  apply yields_le_gbind_sat
    with (P := fun s' => _max_binary_search_steps s' = _max_binary_search_steps s).
  - unfold _perform_concurrency_sweep, py_range.
    apply yields_le_mono
      with (n := length (seq (_min_concurrency_index s)
                     (_max_concurrency_index s + 1 - _min_concurrency_index s))).
    + apply sweep_loop_yields.
    + rewrite length_seq. lia.
  - apply sweep_loop_steps.
  - intros s1 Hs1.
    destruct (_was_constraint_violated s1) as [e | [violated s2]] eqn:Hv; simpl;
      [constructor |].
    destruct violated; [| constructor].
    unfold _perform_binary_concurrency_search. simpl.
    rewrite (was_constraint_violated_steps _ _ _ Hv), Hs1.
    apply binary_loop_yields.
Qed.

(** C6: whatever the caller feeds back, a search over exponents
    minIndex <= maxIndex with a non-negative budget of binary steps emits,
    over its sweep and its binary search together, no more than
    (maxIndex - minIndex + 1) + maxBinarySteps + 1 configurations. *)
Theorem proposal_count_bound
    (s : ConcurrencySearch RCM) (script : list (list (option RCM))) :
  (_min_concurrency_index s <= _max_concurrency_index s)%nat ->
  0 <= _max_binary_search_steps s ->
  Z.of_nat (length (emitted (search_concurrencies K s) script))
  <= (Z.of_nat (_max_concurrency_index s) - Z.of_nat (_min_concurrency_index s) + 1)
     + _max_binary_search_steps s + 1.
Proof.
  intros Hrange Hsteps.
  pose proof (yields_le_emitted _ _ script (search_concurrencies_yields s)) as H.
  lia.
Qed.

(** *** The constraint boundary *)

Lemma at_constraint_failure_boundary_spec (s : ConcurrencySearch RCM) (j : nat) :
  (1 <= j < length (_run_config_measurements s))%nat ->
  _at_constraint_failure_boundary s j
  = ok (failure_boundary_at (_run_config_measurements s) j).
Proof.
  intros Hj. unfold _at_constraint_failure_boundary, failure_boundary_at.
  destruct (nth_error (_run_config_measurements s) j) as [later |] eqn:Hl;
    [| apply nth_error_None in Hl; lia].
  destruct (nth_error (_run_config_measurements s) (j - 1)) as [earlier |] eqn:He;
    [| apply nth_error_None in He; lia].
  rewrite (py_getitem_nonneg _ _ _ Hl). simpl.
  destruct later as [l |]; [| reflexivity].
  rewrite (py_getitem_pred _ _ _ (proj1 Hj) He). simpl.
  destruct earlier; reflexivity.
Qed.

Lemma violation_scan_cons (s : ConcurrencySearch RCM) j rest i :
  violation_scan s (j :: rest) i
  = rbind (_at_constraint_failure_boundary s j) (fun b =>
      if b : bool then
        rbind (py_getitem (_concurrencies s) (Z.of_nat j)) (fun failing =>
        rbind (py_getitem (_concurrencies s) (Z.of_nat j - 1)) (fun passing =>
          ok (ScanReturned
                (set_last_passing (set_last_failing s failing) passing))))
      else violation_scan s rest (Some j)).
Proof. reflexivity. Qed.

(** The scan returns at the latest boundary at an index of at least 2. *)
Lemma violation_scan_finds (s : ConcurrencySearch RCM) (i : nat) (ci cp : Z) :
  (2 <= i)%nat ->
  failure_boundary_at (_run_config_measurements s) i = true ->
  nth_error (_concurrencies s) i = Some ci ->
  nth_error (_concurrencies s) (i - 1) = Some cp ->
  forall start v,
    (i <= start < length (_run_config_measurements s))%nat ->
    (forall j, (i < j <= start)%nat ->
               failure_boundary_at (_run_config_measurements s) j = false) ->
    violation_scan s (py_range_down start 1) v
    = ok (ScanReturned (set_last_passing (set_last_failing s ci) cp)).
Proof.
  intros Hi Hb Hci Hcp.
  induction start as [| p IH]; intros v Hstart Hlater; [lia |].
  simpl py_range_down. destruct (Nat.ltb_spec 1 (S p)) as [_ | H1]; [| lia].
  rewrite violation_scan_cons.
  rewrite at_constraint_failure_boundary_spec by lia.
  destruct (Nat.eq_dec (S p) i) as [Heq | Hne].
  - rewrite Heq, Hb. unfold rbind at 1.
    rewrite (py_getitem_nonneg _ _ _ Hci). unfold rbind at 1.
    assert (H1i : (1 <= i)%nat) by lia.
    rewrite (py_getitem_pred _ _ _ H1i Hcp). reflexivity.
  - rewrite (Hlater (S p)) by lia. unfold rbind at 1.
    apply IH; [lia |]. intros j Hj. apply Hlater. lia.
Qed.

(** Without a boundary at any index from 2 on, the scan runs to its end
    and leaves its loop variable at 2, or unbound when it never ran. *)
Lemma violation_scan_exhausted (s : ConcurrencySearch RCM) :
  forall start v,
    (start < length (_run_config_measurements s))%nat ->
    (forall j, (2 <= j <= start)%nat ->
               failure_boundary_at (_run_config_measurements s) j = false) ->
    violation_scan s (py_range_down start 1) v
    = ok (ScanExhausted (if (2 <=? start)%nat then Some 2%nat else v)).
Proof.
  induction start as [| p IH]; intros v Hstart Hnone; [reflexivity |].
  simpl py_range_down. destruct (Nat.ltb_spec 1 (S p)) as [H1 | H1].
  - rewrite violation_scan_cons.
    rewrite at_constraint_failure_boundary_spec by lia.
    rewrite (Hnone (S p)) by lia. unfold rbind at 1.
    rewrite IH; [| lia | intros j Hj; apply Hnone; lia].
    destruct (Nat.leb_spec 2 (S p)) as [_ | H2]; [| lia].
    destruct (Nat.leb_spec 2 p) as [_ | H2]; [reflexivity |].
    replace p with 1%nat by lia. reflexivity.
  - destruct (Nat.leb_spec 2 (S p)); [lia | reflexivity].
Qed.

(** X20: a failing measurement at [i >= 2] right after a passing one, with no
    later such pair: the violation is reported with the bounds at the
    configurations emitted at [i] and [i - 1]. *)
Lemma was_constraint_violated_interior
    (s : ConcurrencySearch RCM) (i : nat) (ci cp : Z) :
  (2 <= i < length (_run_config_measurements s))%nat ->
  failure_boundary_at (_run_config_measurements s) i = true ->
  (forall j, (i < j < length (_run_config_measurements s))%nat ->
             failure_boundary_at (_run_config_measurements s) j = false) ->
  nth_error (_concurrencies s) i = Some ci ->
  nth_error (_concurrencies s) (i - 1) = Some cp ->
  _was_constraint_violated s
  = ok (true, set_last_passing (set_last_failing s ci) cp).
Proof.
  intros Hi Hb Hlater Hci Hcp. unfold _was_constraint_violated.
  rewrite (violation_scan_finds s i ci cp); auto; try lia.
  intros j Hj. apply Hlater. lia.
Qed.

(** X21: a failing first measurement and no boundary from index 2 on: with at
    least three measurements the failing bound becomes the configuration at
    index 2, the value the loop variable was left at; with one or two, the
    loop variable is unbound. *)
Lemma was_constraint_violated_first_fails
    (s : ConcurrencySearch RCM) (m : RCM) (rest : list (option RCM)) :
  _run_config_measurements s = Some m :: rest ->
  is_passing_constraints m = false ->
  (forall j, (2 <= j < length (_run_config_measurements s))%nat ->
             failure_boundary_at (_run_config_measurements s) j = false) ->
  _was_constraint_violated s
  = if (3 <=? length (_run_config_measurements s))%nat then
      match nth_error (_concurrencies s) 2 with
      | Some c => ok (true, set_last_passing (set_last_failing s c) 0)
      | None => raise IndexError
      end
    else raise UnboundLocalError.
Proof.
  intros Hrcms Hfail Hnone. unfold _was_constraint_violated.
  rewrite violation_scan_exhausted;
    [| rewrite Hrcms; simpl; lia | intros j Hj; apply Hnone; lia].
  unfold rbind at 1.
  assert (H0 : py_getitem (_run_config_measurements s) 0 = ok (Some m))
    by (rewrite Hrcms; reflexivity).
  rewrite H0. cbn [rbind ok]. rewrite Hfail. cbn [negb].
  destruct (Nat.leb_spec 3 (length (_run_config_measurements s))) as [H3 | H3];
    destruct (Nat.leb_spec 2 (length (_run_config_measurements s) - 1));
    try lia; [| reflexivity].
  destruct (nth_error (_concurrencies s) 2) as [c |] eqn:Hc.
  - pose proof (py_getitem_nonneg _ 2%nat _ Hc) as HI.
    unfold ok at 1. cbn [rbind ok]. rewrite HI. reflexivity.
  - assert (HI : py_getitem (_concurrencies s) 2 = raise IndexError).
    { unfold py_getitem. apply nth_error_None in Hc.
      destruct (Z.ltb_spec 2 0); [lia |].
      destruct (Z.ltb_spec 2 0); [lia |].
      destruct (Z.leb_spec (Z.of_nat (length (_concurrencies s))) 2);
        [reflexivity | lia]. }
    cbn [rbind ok]. change (Z.of_nat 2) with 2. rewrite HI. reflexivity.
Qed.

End SearchFacts.

(** ** The concurrency search on throughput measurements *)

Module Examples.

Local Open Scope Q_scope.

(** C3, as the specification words it, fails: after 50, 50, 50, 52.51 the
    sweep does not continue. *)
Lemma plateau_at_52_51_stops :
  _should_continue_concurrency_sweep default_constants
    (plateau_history (5251 # 100)) <> ok true.
Proof. vm_compute. discriminate. Qed.

(** C3, amended: with four tries and a threshold of 0.05 the sweep does not
    continue after 50, 50, 50, 52.5, and does not continue after 50, 50, 50,
    52.51 either: the gain of the best of the last four over the measurement
    four steps back is the difference relative to the mean of the two,
    2.5 / 51.25 = 2/41 and 2.51 / 51.255 = 502/10251, both below 0.05. *)
Theorem plateau_check :
  (_calculate_gain default_constants (plateau_history (525 # 10))
   = ok (fractional_gain 50 (525 # 10))
   /\ fractional_gain 50 (525 # 10) == 2 # 41
   /\ 2 # 41 < 5 # 100) /\
  _should_continue_concurrency_sweep default_constants
    (plateau_history (525 # 10)) = ok false /\
  (_calculate_gain default_constants (plateau_history (5251 # 100))
   = ok (fractional_gain 50 (5251 # 100))
   /\ fractional_gain 50 (5251 # 100) == 502 # 10251
   /\ 502 # 10251 < 5 # 100) /\
  _should_continue_concurrency_sweep default_constants
    (plateau_history (5251 # 100)) = ok false.
Proof.
  split; [repeat split; reflexivity |].
  split; [reflexivity |].
  split; [repeat split; reflexivity |].
  reflexivity.
Qed.

Local Close Scope Q_scope.

(** C1, as the specification words it, fails: fed 1, 2, 4, 4 for the
    concurrencies 1, 2, 4, 8, the search goes on to emit 16, a fifth
    configuration. *)
Lemma end_to_end_emits_16 :
  emitted (search_concurrencies default_constants (fresh_search 0 4 5))
    (lockstep [pass_at 1; pass_at 2; pass_at 4; pass_at 4])
  = [1; 2; 4; 8; 16]
  /\ length (emitted (search_concurrencies default_constants (fresh_search 0 4 5))
               (lockstep [pass_at 1; pass_at 2; pass_at 4; pass_at 4])) <> 4%nat.
Proof. split; [reflexivity | discriminate]. Qed.

(** C1, amended: with exponents 0 to 4, four tries and a threshold of 0.05,
    fed passing measurements of throughput 1, 2, 4, 4 for the concurrencies
    1, 2, 4, 8, the sweep does not stop before 16 but emits it; once a fifth
    passing measurement is fed, of any throughput, the search ends without
    entering the binary search, having emitted exactly the five
    configurations 1, 2, 4, 8, 16. *)
Theorem end_to_end_sweep (steps : Z) (t : Q) :
  run (search_concurrencies default_constants (fresh_search 0 4 steps))
    (lockstep [pass_at 1; pass_at 2; pass_at 4; pass_at 4])
  = ([1; 2; 4; 8; 16], Suspended) /\
  run (search_concurrencies default_constants (fresh_search 0 4 steps))
    (lockstep [pass_at 1; pass_at 2; pass_at 4; pass_at 4; pass_at t])
  = ([1; 2; 4; 8; 16],
     Finished (search_after 0 4 steps [1; 2; 4; 8; 16]
                 [pass_at 1; pass_at 2; pass_at 4; pass_at 4; pass_at t])) /\
  _was_constraint_violated
    (search_after 0 4 steps [1; 2; 4; 8; 16]
       [pass_at 1; pass_at 2; pass_at 4; pass_at 4; pass_at t])
  = ok (false,
        search_after 0 4 steps [1; 2; 4; 8; 16]
          [pass_at 1; pass_at 2; pass_at 4; pass_at 4; pass_at t]).
Proof. repeat split; reflexivity. Qed.

(** C2 at i = 1: the first measurement passes and the second fails, yet no
    violation is reported and the search ends without a binary search; the
    scan looks at the pairs from index 2 on only. *)
Theorem boundary_at_index_1_missed (steps : Z) :
  failure_boundary_at [pass_at 1; fail_at 2] 1 = true /\
  _was_constraint_violated
    (search_after 0 1 steps [1; 2] [pass_at 1; fail_at 2])
  = ok (false, search_after 0 1 steps [1; 2] [pass_at 1; fail_at 2]) /\
  run (search_concurrencies default_constants (fresh_search 0 1 steps))
    (lockstep [pass_at 1; fail_at 2])
  = ([1; 2],
     Finished (search_after 0 1 steps [1; 2] [pass_at 1; fail_at 2])).
Proof. repeat split; reflexivity. Qed.

(** C4 on short and on longer histories: with every measurement failing,
    one or two measurements end the search with UnboundLocalError, and
    three set the failing bound to the third configuration emitted, 4, not
    to the first, 1. *)
Theorem first_failure_bounds (steps : Z) :
  _was_constraint_violated
    (search_after 0 0 steps [1] [fail_at 1]) = raise UnboundLocalError /\
  _was_constraint_violated
    (search_after 0 1 steps [1; 2] [fail_at 1; fail_at 2])
  = raise UnboundLocalError /\
  _was_constraint_violated
    (search_after 0 2 steps [1; 2; 4] [fail_at 1; fail_at 2; fail_at 4])
  = ok (true,
        set_last_passing
          (set_last_failing
             (search_after 0 2 steps [1; 2; 4] [fail_at 1; fail_at 2; fail_at 4])
             4) 0) /\
  outcome (search_concurrencies default_constants (fresh_search 0 0 steps))
    (lockstep [fail_at 1]) = Raised UnboundLocalError.
Proof. repeat split; reflexivity. Qed.


(** The properties above at concrete searches. *)

Lemma calculate_gain_absent_endpoints_witness :
  _calculate_gain default_constants
    (search_after 0 4 5 [1; 2; 4; 8] [None; pass_at 1; None; pass_at 2])
  = ok 1%Q.
Proof.
  refine (proj1 (proj1 (proj2
    (calculate_gain_absent_endpoints default_constants
       (search_after 0 4 5 [1; 2; 4; 8] [None; pass_at 1; None; pass_at 2])
       _ _ _ _)) {| throughput := 2; passing := true |} _ _)).
  - simpl. lia.
  - reflexivity.
  - reflexivity.
  - discriminate.
  - reflexivity.
  - reflexivity.
Defined.


Lemma measurement_count_mismatch_is_fatal_witness :
  run (search_concurrencies default_constants
         (search_after 0 4 5 [1; 2] [pass_at 1; pass_at 2; pass_at 3]))
      (lockstep [pass_at 4])
  = ([], Raised TritonModelAnalyzerException).
Proof.
  refine (proj2 (proj2
    (measurement_count_mismatch_is_fatal default_constants
       (search_after 0 4 5 [1; 2] [pass_at 1; pass_at 2; pass_at 3])
       0%nat [] _)) _ _).
  - simpl. lia.
  - simpl. lia.
Defined.

Lemma proposal_count_bound_witness :
  Z.of_nat (length (emitted
                      (search_concurrencies default_constants (fresh_search 0 3 5))
                      (lockstep [pass_at 1; pass_at 2; pass_at 3; fail_at 4;
                                 pass_at 1; pass_at 1; pass_at 1; pass_at 1])))
  <= (Z.of_nat 3 - Z.of_nat 0 + 1) + 5 + 1.
Proof.
  apply (proposal_count_bound default_constants (fresh_search 0 3 5)).
  - simpl. lia.
  - simpl. lia.
Defined.

End Examples.

(** ** The brute-plus generator *)

Section BrutePlusFacts.

Context {RCM : Type} `{M : Measurement RCM}.
Variable K : Constants.
Variable config : ConfigCommandProfile.
Variable models : list ModelProfileSpec.
Variable brute : Gen RunConfig (@Feedback RCM) unit.
Variable get_model_names : list string.
Variable top_n_results : string -> list RunConfig.
Variable new_search : ConfigCommandProfile -> Res (ConcurrencySearch RCM).

(** The search is automatic exactly when no model has model config
    parameters. *)
Lemma is_automatic_search_mode_spec (ms : list ModelProfileSpec) :
  _is_automatic_search_mode ms = true <->
  Forall (fun m => truthy_dict (model_config_parameters m) = false) ms.
Proof.
  induction ms as [| m rest IH]; simpl.
  - split; [constructor | reflexivity].
  - destruct (truthy_dict (model_config_parameters m)) eqn:Hm.
    + split; [discriminate | intros H; inversion H; congruence].
    + rewrite IH. split; [constructor; assumption | intros H; inversion H; auto].
Qed.

(** The brute search yields what the brute generator yields and ends as it
    ends. *)
Lemma execute_brute_search_run (rcg : Gen RunConfig (@Feedback RCM) unit) :
  forall last script,
    emitted (_execute_brute_search rcg last) script = emitted rcg script /\
    match outcome rcg script with
    | Finished _ => exists last', outcome (_execute_brute_search rcg last) script
                                  = Finished last'
    | Raised e => outcome (_execute_brute_search rcg last) script = Raised e
    | Suspended => outcome (_execute_brute_search rcg last) script = Suspended
    end.
Proof.
  unfold emitted, outcome.
  induction rcg as [[] | e | y k IH]; intros last script; simpl.
  - split; [reflexivity | eauto].
  - split; reflexivity.
  - destruct script as [| r rs]; simpl; [split; reflexivity |].
    specialize (IH r (set_last_measurement last r) rs).
    destruct (run (k r) rs) as [ys o],
             (run (_execute_brute_search (k r) (set_last_measurement last r)) rs)
               as [ys' o'].
    simpl in *. destruct IH as [-> Ho]. split; [reflexivity | exact Ho].
Qed.

(** C8: the configurations [get_configs] yields are those of the brute
    search, in order, followed, once and only if the brute search has
    finished, by those of the binary search over the top results, which is
    entered exactly when no profiled model has model config parameters;
    otherwise the generator ends right after the brute search. *)
Theorem brute_search_then_refinement :
  (_is_automatic_search_mode models = true <->
   Forall (fun m => truthy_dict (model_config_parameters m) = false) models) /\
  (forall script,
     emitted (_execute_brute_search brute None) script = emitted brute script) /\
  (forall script,
     run (get_configs K config models brute get_model_names top_n_results
            new_search) script
     = match run (_execute_brute_search brute None) script with
       | (phase1, Finished last) =>
           if _is_automatic_search_mode models then
             let (phase2, o) :=
               run (gbind (_binary_search_over_top_results K config
                             get_model_names top_n_results new_search last)
                          (fun _ => Ret tt))
                   (skipn (length phase1) script) in
             (phase1 ++ phase2, o)
           else (phase1, Finished tt)
       | (phase1, Raised e) => (phase1, Raised e)
       | (phase1, Suspended) => (phase1, Suspended)
       end).
Proof.
  split; [apply is_automatic_search_mode_spec |].
  split; [intros script; apply execute_brute_search_run |].
  intros script. unfold get_configs. rewrite run_gbind.
  destruct (run (_execute_brute_search brute None) script) as [phase1 [last | e |]];
    try reflexivity.
  unfold after_brute_search.
  destruct (_is_automatic_search_mode models); [reflexivity |].
  simpl. rewrite app_nil_r. reflexivity.
Qed.

End BrutePlusFacts.

(** ** The numeric range field *)

Section RangeNumericFacts.

Local Open Scope string_scope.

Variable type_ : PyVal -> Res PyVal.

(** C9: [set_value] turns the string "2:10:2" into the one-element list
    ["2:10:2"] and reports success; it answers the mapping
    {"start": 5, "stop": 2} with a failure status, start being above stop,
    without raising and without touching the field; and it stores a list
    such as [1, 2, 4], or any other, as it is, reporting success. *)
Theorem set_value_examples (self_value : PyVal) :
  set_value type_ self_value (PStr "2:10:2")
  = ok (CONFIG_PARSER_SUCCESS, PList [PStr "2:10:2"]) /\
  set_value type_ self_value (PDict [("start", PInt 5); ("stop", PInt 2)])
  = ok (CONFIG_PARSER_FAILURE start_after_stop, self_value) /\
  set_value type_ self_value (PList [PInt 1; PInt 2; PInt 4])
  = ok (CONFIG_PARSER_SUCCESS, PList [PInt 1; PInt 2; PInt 4]) /\
  (forall l, set_value type_ self_value (PList l)
             = ok (CONFIG_PARSER_SUCCESS, PList l)).
Proof. repeat split; reflexivity. Qed.

End RangeNumericFacts.

(** ** More on the concurrency search *)

Section SearchMore.

Context {RCM : Type} `{M : Measurement RCM}.
Variable K : Constants.

Abbreviation tries := (THROUGHPUT_MINIMUM_CONSECUTIVE_CONCURRENCY_TRIES K).

Lemma add_all_measurements (ms : list (option RCM)) :
  forall s : ConcurrencySearch RCM,
    _run_config_measurements (add_all s ms) = _run_config_measurements s ++ ms.
Proof.
  unfold add_all.
  induction ms as [| m rest IH]; intros s; simpl.
  - rewrite app_nil_r. reflexivity.
  - rewrite IH. simpl. rewrite <- app_assoc. reflexivity.
Qed.

Lemma add_all_concurrencies (ms : list (option RCM)) :
  forall s : ConcurrencySearch RCM,
    _concurrencies (add_all s ms) = _concurrencies s.
Proof.
  unfold add_all.
  induction ms as [| m rest IH]; intros s; simpl; [reflexivity |].
  rewrite IH. reflexivity.
Qed.

(** What a run of the sweep loop emits and, when it returns, what the
    object then holds. *)
Lemma sweep_loop_run (idxs : list nat) :
  forall (s : ConcurrencySearch RCM) script ys o,
    run (sweep_loop K idxs s) script = (ys, o) ->
    (exists rest, map (fun i => 2 ^ Z.of_nat i) idxs = ys ++ rest) /\
    match o with
    | Finished s' =>
        _concurrencies s' = _concurrencies s ++ ys /\
        _run_config_measurements s'
        = _run_config_measurements s ++ concat (firstn (length ys) script)
    | _ => True
    end.
Proof.
  induction idxs as [| i rest IH]; intros s script ys o Hrun; simpl in Hrun.
  - injection Hrun as <- <-. split; [exists []; reflexivity |].
    simpl. rewrite !app_nil_r. split; reflexivity.
  - destruct (_should_continue_concurrency_sweep K s) as [e | [|]];
      simpl in Hrun.
    + injection Hrun as <- <-. split; [eexists; reflexivity | exact I].
    + destruct script as [| r rs].
      * injection Hrun as <- <-. split; [exists (map (fun i => 2 ^ Z.of_nat i) rest); reflexivity | exact I].
      * destruct (run (sweep_loop K rest _) rs) as [zs o'] eqn:Hrest.
        injection Hrun as <- <-.
        destruct (IH _ _ _ _ Hrest) as [[more Hmore] Ho].
        split; [exists more; simpl; rewrite Hmore; reflexivity |].
        destruct o' as [s' | e |]; try exact I.
        destruct Ho as [Hc Hm].
        rewrite add_all_concurrencies in Hc.
        rewrite add_all_measurements in Hm. simpl in Hc, Hm.
        split.
        -- rewrite Hc, <- app_assoc. reflexivity.
        -- rewrite Hm. simpl. rewrite <- app_assoc. reflexivity.
    + injection Hrun as <- <-. split; [eexists; reflexivity |].
      simpl. rewrite !app_nil_r. split; reflexivity.
Qed.

(** X1: whatever is fed back, the sweep emits an initial part of the ladder
    2^min, ..., 2^max, in that order. *)
Theorem sweep_emits_ladder_prefix
    (s : ConcurrencySearch RCM) (script : list (list (option RCM))) :
  exists rest,
    map (fun i => 2 ^ Z.of_nat i)
        (py_range (_min_concurrency_index s) (_max_concurrency_index s + 1))
    = emitted (_perform_concurrency_sweep K s) script ++ rest.
Proof.
  unfold emitted, _perform_concurrency_sweep.
  destruct (run (sweep_loop K _ s) script) as [ys o] eqn:Hrun.
  apply (sweep_loop_run _ _ _ _ _ Hrun).
Qed.

(** X2: when the sweep returns, the object holds the configurations it had
    plus those just emitted, and the measurements it had plus those the
    caller added after each of them. *)
Theorem sweep_records_history
    (s s' : ConcurrencySearch RCM) (script : list (list (option RCM))) ys :
  run (_perform_concurrency_sweep K s) script = (ys, Finished s') ->
  _concurrencies s' = _concurrencies s ++ ys /\
  _run_config_measurements s'
  = _run_config_measurements s ++ concat (firstn (length ys) script).
Proof.
  intros Hrun. apply (sweep_loop_run _ _ _ _ _ Hrun).
Qed.

(** *** Driving the search in lockstep *)

















(** *** When the binary search starts *)

Lemma failure_boundary_needs_failure (rcms : list (option RCM)) (j : nat) :
  all_present_pass rcms -> failure_boundary_at rcms j = false.
Proof.
  intros Hall. unfold failure_boundary_at.
  destruct (nth_error rcms j) as [[later |] |] eqn:Hl; try reflexivity.
  destruct (nth_error rcms (j - 1)) as [[earlier |] |]; try reflexivity.
  apply nth_error_In in Hl. unfold all_present_pass in Hall.
  rewrite Forall_forall in Hall. rewrite (Hall _ Hl). reflexivity.
Qed.

(** X5: when no measurement on record fails its constraints (absent ones
    aside), no violation is reported and the object is left as it was, so
    the binary search does not start. *)
Theorem no_failure_no_violation (s : ConcurrencySearch RCM) :
  _run_config_measurements s <> [] ->
  all_present_pass (_run_config_measurements s) ->
  _was_constraint_violated s = ok (false, s).
Proof.
  intros Hne Hall. unfold _was_constraint_violated.
  rewrite violation_scan_exhausted.
  - cbn [rbind ok].
    destruct (_run_config_measurements s) as [| first rest] eqn:Hrcms;
      [congruence |].
    change (py_getitem (first :: rest) 0) with (ok first). cbn [rbind ok].
    destruct first as [m |]; [| reflexivity].
    inversion Hall as [| ? ? Hm ?]; subst. rewrite Hm. reflexivity.
  - destruct (_run_config_measurements s); [congruence | simpl; lia].
  - intros j _. apply failure_boundary_needs_failure. exact Hall.
Qed.

(** X6: with no measurement on record the check for a violated constraint
    raises IndexError; so a search whose exponent range is empty ends with
    IndexError before emitting anything. *)
Theorem empty_history_index_error (s : ConcurrencySearch RCM) script :
  _run_config_measurements s = [] ->
  _was_constraint_violated s = raise IndexError /\
  ((_max_concurrency_index s < _min_concurrency_index s)%nat ->
   run (search_concurrencies K s) script = ([], Raised IndexError)).
Proof.
  intros Hnil.
  assert (Hv : _was_constraint_violated s = raise IndexError)
    by (unfold _was_constraint_violated; rewrite Hnil; reflexivity).
  split; [exact Hv |].
  intros Hrange. unfold search_concurrencies, _perform_concurrency_sweep, py_range.
  replace (_max_concurrency_index s + 1 - _min_concurrency_index s)%nat
    with 0%nat by lia.
  simpl. rewrite Hv. reflexivity.
Qed.

(** *** The binary search *)

Lemma int_half_between (a b : Z) :
  0 <= a -> 0 <= b -> a + b < 2 ^ 53 ->
  exists c, int_half (a + b) = ok c /\ Z.min a b <= c <= Z.max a b.
Proof.
  intros Ha Hb Hsmall. unfold int_half.
  destruct (Z.ltb_spec (Z.abs (a + b)) (2 ^ 53)) as [_ | Hbig]; [| lia].
  exists (Z.quot (a + b) 2). split; [reflexivity |].
  rewrite Z.quot_div_nonneg by lia.
  pose proof (Z.div_mod (a + b) 2 ltac:(lia)).
  pose proof (Z.mod_pos_bound (a + b) 2 ltac:(lia)). lia.
Qed.

(** X7: one step of the binary search, on a present last measurement and
    non-negative bounds small enough for the division to be exact (sums
    below 2^53): a passing measurement moves the passing bound to the last
    configuration and proposes a value between it and the failing bound; a
    failing one moves the failing bound and proposes a value between the
    passing bound and the last configuration. *)
Theorem determine_next_between
    (s : ConcurrencySearch RCM) (m : RCM) (last : Z) :
  py_getitem (_run_config_measurements s) (-1) = ok (Some m) ->
  py_getitem (_concurrencies s) (-1) = ok last ->
  0 <= last ->
  0 <= _last_failing_concurrency s ->
  0 <= _last_passing_concurrency s ->
  last + _last_failing_concurrency s < 2 ^ 53 ->
  last + _last_passing_concurrency s < 2 ^ 53 ->
  exists c s1,
    _determine_next_binary_concurrency s = ok (c, s1) /\
    if is_passing_constraints m then
      s1 = set_last_passing s last /\
      Z.min last (_last_failing_concurrency s) <= c
      <= Z.max last (_last_failing_concurrency s)
    else
      s1 = set_last_failing s last /\
      Z.min last (_last_passing_concurrency s) <= c
      <= Z.max last (_last_passing_concurrency s).
Proof.
  intros Hm Hlast H0 Hf Hp Hsf Hsp. unfold _determine_next_binary_concurrency.
  rewrite Hm. cbn [rbind ok]. rewrite Hlast. cbn [rbind ok].
  destruct (is_passing_constraints m); simpl.
  - destruct (int_half_between last (_last_failing_concurrency s) H0 Hf Hsf)
      as (c & Hc & Hbetween).
    rewrite Z.add_comm, Hc. cbn [rbind ok].
    exists c, (set_last_passing s last). auto.
  - destruct (int_half_between last (_last_passing_concurrency s) H0 Hp Hsp)
      as (c & Hc & Hbetween).
    rewrite Z.add_comm, Hc. cbn [rbind ok].
    exists c, (set_last_failing s last). auto.
Qed.

Lemma binary_loop_adjacent (steps : nat) :
  forall (s : ConcurrencySearch RCM) script c0,
    py_getitem (_concurrencies s) (-1) = ok c0 ->
    adjacent_distinct (c0 :: emitted (binary_loop steps s) script).
Proof.
  unfold emitted.
  induction steps as [| n IH]; intros s script c0 Hc0; simpl; [exact I |].
  destruct (_determine_next_binary_concurrency s) as [e | [c s1]] eqn:Hd;
    simpl; [exact I |].
  assert (Hc1 : _concurrencies s1 = _concurrencies s).
  { unfold _determine_next_binary_concurrency in Hd.
    destruct (py_getitem (_run_config_measurements s) (-1)) as [e | [m |]];
      cbn [rbind ok] in Hd; try discriminate.
    - destruct (py_getitem (_concurrencies s) (-1)) as [e | l];
        cbn [rbind ok] in Hd; [discriminate |].
      destruct (is_passing_constraints m);
        destruct (int_half _) as [e | r]; cbn [rbind ok] in Hd;
        try discriminate; injection Hd as _ <-; reflexivity.
    - injection Hd as _ <-. reflexivity. }
  assert (Hc0' : py_getitem (_concurrencies s1) (-1) = ok c0)
    by (rewrite Hc1; exact Hc0).
  rewrite Hc0'. simpl.
  destruct (Z.eqb_spec c c0) as [-> | Hne]; simpl.
  - apply IH. exact Hc0'.
  - assert (Hlast : forall added,
               py_getitem
                 (_concurrencies
                    (add_all (set_concurrencies s1 (_concurrencies s1 ++ [c]))
                             added)) (-1) = ok c).
    { intros added. rewrite add_all_concurrencies. simpl.
      assert (Hl : (1 <= 1 <= length (_concurrencies s1 ++ [c]))%nat)
        by (rewrite length_app; simpl; lia).
      pose proof (py_getitem_from_end (_concurrencies s1 ++ [c]) 1 Hl) as H.
      simpl in H. rewrite H.
      rewrite length_app. simpl.
      replace (length (_concurrencies s1) + 1 - 1)%nat
        with (length (_concurrencies s1) + 0)%nat by lia.
      rewrite nth_error_app2 by lia.
      replace (length (_concurrencies s1) + 0 - length (_concurrencies s1))%nat
        with 0%nat by lia.
      reflexivity. }
    assert (Hcc : c0 <> c) by congruence.
    destruct script as [| r rs].
    + cbn [fst]. exact (conj Hcc I).
    + specialize (IH _ rs c (Hlast r)).
      destruct (run (binary_loop n
                       (add_all (set_concurrencies s1 (_concurrencies s1 ++ [c])) r))
                    rs) as [ys o].
      cbn [fst] in *. exact (conj Hcc IH).
Qed.

(** X8: the binary search never proposes the value at the end of the
    configurations on record: its first proposal differs from the failing
    configuration it restarts from, and each later one from the one before. *)
Theorem binary_search_no_immediate_repeat
    (s : ConcurrencySearch RCM) (script : list (list (option RCM))) :
  adjacent_distinct
    (_last_failing_concurrency s
     :: emitted (_perform_binary_concurrency_search s) script).
Proof.
  unfold _perform_binary_concurrency_search.
  apply binary_loop_adjacent. simpl.
  assert (Hl : (1 <= 1 <= length (_concurrencies s ++ [_last_failing_concurrency s]))%nat)
    by (rewrite length_app; simpl; lia).
  pose proof (py_getitem_from_end _ 1 Hl) as H. simpl in H. rewrite H.
  rewrite length_app. simpl.
  replace (length (_concurrencies s) + 1 - 1)%nat
    with (length (_concurrencies s) + 0)%nat by lia.
  rewrite nth_error_app2 by lia.
  replace (length (_concurrencies s) + 0 - length (_concurrencies s))%nat
    with 0%nat by lia.
  reflexivity.
Qed.

(** X9: once a step of the binary search computes the configuration that
    is already last on record, the search has converged: however many
    steps are left, nothing more is emitted. *)
Theorem binary_search_converged
    (s s1 : ConcurrencySearch RCM) (c : Z) (steps : nat)
    (script : list (list (option RCM))) :
  _determine_next_binary_concurrency s = ok (c, s1) ->
  py_getitem (_concurrencies s) (-1) = ok c ->
  run (binary_loop steps s) script
  = ([], Finished (match steps with O => s | S _ => s1 end)).
Proof.
  intros Hd Hlast.
  assert (Hs1 : _determine_next_binary_concurrency s1 = ok (c, s1)
                /\ py_getitem (_concurrencies s1) (-1) = ok c).
  { unfold _determine_next_binary_concurrency in *.
    destruct (py_getitem (_run_config_measurements s) (-1)) as [e | [m |]] eqn:Hm;
      cbn [rbind ok] in Hd; try discriminate.
    - rewrite Hlast in Hd. cbn [rbind ok] in Hd.
      destruct (is_passing_constraints m) eqn:Hp;
        destruct (int_half _) as [e | r] eqn:Hh; cbn [rbind ok] in Hd;
        try discriminate; injection Hd as Hc Hs; subst r s1;
        simpl in Hh |- *; rewrite Hm; cbn [rbind ok]; rewrite Hlast;
        cbn [rbind ok]; rewrite Hp; simpl; rewrite Hh; split; reflexivity.
    - injection Hd as <- <-. rewrite Hm. cbn [rbind ok].
      split; [reflexivity | exact Hlast]. }
  destruct steps as [| n]; [reflexivity |].
  simpl. rewrite Hd. simpl.
  destruct Hs1 as [Hd1 Hlast1]. rewrite Hlast1. simpl.
  rewrite Z.eqb_refl. simpl.
  clear Hd Hlast. induction n as [| n IH]; [reflexivity |].
  simpl. rewrite Hd1. simpl. rewrite Hlast1. simpl. rewrite Z.eqb_refl. simpl.
  exact IH.
Qed.

(** *** The first tries *)

Lemma should_continue_before_minimum_tries (s : ConcurrencySearch RCM) :
  length (_run_config_measurements s) = length (_concurrencies s) ->
  (length (_run_config_measurements s) < tries)%nat ->
  _should_continue_concurrency_sweep K s = ok true.
Proof.
  intros Hcount Hlt.
  unfold _should_continue_concurrency_sweep, _check_measurement_count,
    _are_minimum_tries_reached.
  assert (Heq : (length (_run_config_measurements s)
                 =? length (_concurrencies s))%nat = true)
    by (rewrite Hcount; apply Nat.eqb_refl).
  rewrite Heq.
  destruct (Nat.ltb_spec (length (_run_config_measurements s)) tries); [| lia].
  reflexivity.
Qed.

Lemma sweep_loop_first_tries (idxs : list nat) :
  forall (s : ConcurrencySearch RCM) (ms : list (option RCM)),
    length (_run_config_measurements s) = length (_concurrencies s) ->
    exists rest,
      emitted (sweep_loop K idxs s) (lockstep ms)
      = firstn (Nat.min (tries - length (_run_config_measurements s))
                        (S (length ms)))
               (map (fun i => 2 ^ Z.of_nat i) idxs) ++ rest.
Proof.
  unfold emitted.
  induction idxs as [| i more IH]; intros s ms Hcount.
  - exists []. rewrite firstn_nil. reflexivity.
  - destruct (Nat.ltb_spec (length (_run_config_measurements s)) tries)
      as [Hlt | Hge].
    + simpl sweep_loop.
      rewrite (should_continue_before_minimum_tries s Hcount Hlt).
      cbn [glift ok].
      replace (tries - length (_run_config_measurements s))%nat
        with (S (tries - S (length (_run_config_measurements s)))) by lia.
      rewrite <- Nat.succ_min_distr.
      cbn [map firstn].
      destruct ms as [| m ms'].
      * exists []. cbn [lockstep map run fst length].
        rewrite Nat.min_0_r. reflexivity.
      * cbn [lockstep map run].
        specialize (IH (add_all (set_concurrencies s
                                   (_concurrencies s ++ [2 ^ Z.of_nat i])) [m])
                       ms').
        destruct IH as [rest Hrest].
        { simpl. rewrite !length_app, Hcount. reflexivity. }
        fold (lockstep ms').
        destruct (run (sweep_loop K more _) (lockstep ms')) as [ys o].
        cbn [fst length] in *. exists rest. rewrite Hrest.
        replace (length (_run_config_measurements
                           (add_all (set_concurrencies s
                                       (_concurrencies s ++ [2 ^ Z.of_nat i]))
                                    [m])))
          with (S (length (_run_config_measurements s)))
          by (simpl; rewrite length_app; simpl; lia).
        reflexivity.
    + replace (tries - length (_run_config_measurements s))%nat with 0%nat by lia.
      eexists. reflexivity.
Qed.

(** X10: a search with nothing yet on record, driven in lockstep, always
    emits the first tries of the ladder, whatever the measurements are:
    with [ms] fed back, the first min(MIN_CONSECUTIVE_TRIES, |ms| + 1)
    configurations of 2^min, ..., 2^max (as many as the ladder has) come
    before the plateau test can stop the sweep. *)
Theorem sweep_emits_first_tries
    (s : ConcurrencySearch RCM) (ms : list (option RCM)) :
  _run_config_measurements s = [] ->
  _concurrencies s = [] ->
  exists rest,
    emitted (_perform_concurrency_sweep K s) (lockstep ms)
    = firstn (Nat.min tries (S (length ms)))
             (map (fun i => 2 ^ Z.of_nat i)
                  (py_range (_min_concurrency_index s)
                            (_max_concurrency_index s + 1)))
      ++ rest.
Proof.
  intros Hm Hc. unfold _perform_concurrency_sweep.
  destruct (sweep_loop_first_tries
              (py_range (_min_concurrency_index s) (_max_concurrency_index s + 1))
              s ms) as [rest Hrest].
  { rewrite Hm, Hc. reflexivity. }
  exists rest. rewrite Hrest, Hm. simpl length. rewrite Nat.sub_0_r.
  reflexivity.
Qed.

End SearchMore.

(** ** More on the numeric range field *)

Section DecimalFacts.

Local Open Scope string_scope.

Ltac eval_digit :=
  match goal with
  | |- context [digit_of ?c] =>
      let v := eval vm_compute in (digit_of c) in
      change (digit_of c) with v; cbv beta iota
  end.

Lemma int_digits_acc (d : Decimal.uint) :
  forall p : positive,
    int_digits (Zpos p) (NilEmpty.string_of_uint d)
    = Some (Zpos (Pos.of_uint_acc d p)).
Proof.
  induction d; intros p; cbn [NilEmpty.string_of_uint Pos.of_uint_acc];
    [reflexivity | ..];
    cbn [int_digits]; eval_digit; rewrite <- IHd; f_equal; lia.
Qed.

Lemma int_digits_zero (d : Decimal.uint) :
  int_digits 0 (NilEmpty.string_of_uint d) = Some (Z.of_N (Pos.of_uint d)).
Proof.
  induction d; cbn [NilEmpty.string_of_uint Pos.of_uint];
    [reflexivity | exact IHd | ..];
    cbn [int_digits]; eval_digit; apply int_digits_acc.
Qed.

Lemma int_unsigned_uint (d : Decimal.uint) :
  d <> Decimal.Nil ->
  int_unsigned (NilEmpty.string_of_uint d) = Some (Z.of_N (Pos.of_uint d)).
Proof.
  intros Hd. destruct d; [congruence | ..];
    cbn [NilEmpty.string_of_uint int_unsigned Pos.of_uint]; eval_digit;
    first [apply int_digits_zero | apply int_digits_acc].
Qed.

Lemma lstrip_uint (d : Decimal.uint) :
  lstrip (NilEmpty.string_of_uint d) = NilEmpty.string_of_uint d.
Proof. destruct d; reflexivity. Qed.

Lemma int_of_string_uint (d : Decimal.uint) :
  d <> Decimal.Nil ->
  int_of_string (NilEmpty.string_of_uint d) = ok (Z.of_N (Pos.of_uint d)).
Proof.
  intros Hd. unfold int_of_string. rewrite lstrip_uint.
  pose proof (int_unsigned_uint d Hd) as H.
  destruct d; [congruence | ..]; cbn [NilEmpty.string_of_uint] in *;
    rewrite H; reflexivity.
Qed.

(** Printing an integer and reading it back gives the integer. *)
Lemma int_of_string_str_of_int (z : Z) : int_of_string (str_of_int z) = ok z.
Proof.
  unfold str_of_int. destruct z as [| p | p]; [reflexivity | |];
    cbn [Z.to_int NilZero.string_of_int];
    pose proof (Unsigned.to_uint_nonnil p) as Hnil;
    pose proof (Unsigned.of_to p) as Hof.
  - unfold NilZero.string_of_uint.
    destruct (Pos.to_uint p) eqn:E; [congruence | ..];
      rewrite int_of_string_uint by discriminate; rewrite Hof; reflexivity.
  - unfold NilZero.string_of_uint, int_of_string.
    destruct (Pos.to_uint p) eqn:E; [congruence | ..];
      cbn [lstrip]; (change (is_space "-") with false); cbv beta iota;
      rewrite int_unsigned_uint by discriminate; rewrite Hof; reflexivity.
Qed.

Lemma contains_colon_uint (d : Decimal.uint) :
  contains_char ":" (NilEmpty.string_of_uint d) = false.
Proof. induction d; simpl; auto. Qed.

(** A printed integer contains no colon. *)
Lemma contains_colon_str_of_int (z : Z) :
  contains_char ":" (str_of_int z) = false.
Proof.
  unfold str_of_int. destruct z as [| p | p]; [reflexivity | |];
    cbn [Z.to_int NilZero.string_of_int]; unfold NilZero.string_of_uint;
    destruct (Pos.to_uint p) eqn:E; try reflexivity;
    rewrite <- ?E; simpl; rewrite ?E; try apply contains_colon_uint;
    simpl; apply contains_colon_uint.
Qed.

Lemma contains_char_app (c : ascii) (a b : string) :
  contains_char c (a ++ b) = contains_char c a || contains_char c b.
Proof.
  induction a as [| x a IH]; simpl; [reflexivity |].
  rewrite IH, orb_assoc. reflexivity.
Qed.

Lemma split_on_no_sep (sep : ascii) (a : string) :
  contains_char sep a = false -> split_on sep a = [a].
Proof.
  induction a as [| x a IH]; simpl; intros H; [reflexivity |].
  apply orb_false_iff in H. destruct H as [Hx Ha].
  rewrite Ascii.eqb_sym, Hx, (IH Ha). reflexivity.
Qed.

Lemma split_on_app (sep : ascii) (a rest : string) :
  contains_char sep a = false ->
  split_on sep (a ++ String sep rest) = a :: split_on sep rest.
Proof.
  induction a as [| x a IH]; simpl; intros H.
  - rewrite Ascii.eqb_refl. reflexivity.
  - apply orb_false_iff in H. destruct H as [Hx Ha].
    rewrite Ascii.eqb_sym, Hx, (IH Ha). reflexivity.
Qed.

End DecimalFacts.

Section RangeNumericMore.

Local Open Scope string_scope.

Variable type_ : PyVal -> Res PyVal.

Lemma catch_value_error_not_value_error sv (r : Res (ConfigStatus * PyVal)) :
  catch_value_error sv r <> raise ValueError.
Proof. destruct r as [[] | x]; discriminate. Qed.

(** X11: [set_value] never lets a ValueError escape, whatever it is given
    and whatever the element type does. *)
Theorem set_value_never_raises_value_error (self_value value : PyVal) :
  set_value type_ self_value value <> raise ValueError.
Proof.
  destruct value as [| z | str | l | d]; simpl;
    try apply catch_value_error_not_value_error; try discriminate.
  destruct (negb (contains_char ":" str)); [discriminate |].
  destruct (split_on ":" str) as [| a [| b [| c [| x more]]]];
    try discriminate; apply catch_value_error_not_value_error.
Qed.

Lemma ConfigValue_set_value_shape sv v st v' :
  ConfigValue_set_value sv v = (st, v') ->
  match st with
  | CONFIG_PARSER_SUCCESS => v' = v /\ exists l, v = PList l
  | CONFIG_PARSER_FAILURE _ => v' = sv
  end.
Proof.
  unfold ConfigValue_set_value, validator.
  destruct v; intros H; injection H as <- <-; eauto.
Qed.

Lemma set_value_dict_shape sv d st v' :
  catch_value_error sv (set_value_dict sv d) = ok (st, v') ->
  match st with
  | CONFIG_PARSER_SUCCESS => exists l, v' = PList l
  | CONFIG_PARSER_FAILURE _ => v' = sv
  end.
Proof.
  unfold set_value_dict.
  destruct (_ || _); [| intros H; injection H as <- <-; reflexivity].
  destruct (py_int _) as [e | start]; cbn [rbind ok];
    [destruct e; intros H; try discriminate; injection H as <- <-; reflexivity |].
  destruct (py_int _) as [e | stop]; cbn [rbind ok];
    [destruct e; intros H; try discriminate; injection H as <- <-; reflexivity |].
  destruct (match dict_get d "step" with None => ok 1 | Some v => py_int v end)
    as [e | step]; cbn [rbind ok];
    [destruct e; intros H; try discriminate; injection H as <- <-; reflexivity |].
  destruct (start >? stop); intros H; injection H as <- <-; eauto.
Qed.

(** X12: when [set_value] reports success the field holds a list; when it
    reports failure the field is as it was, except that a string with a
    colon in it has by then reset the field to the empty list. *)
Theorem set_value_field_after (self_value value : PyVal) st v' :
  set_value type_ self_value value = ok (st, v') ->
  match st with
  | CONFIG_PARSER_SUCCESS => exists l, v' = PList l
  | CONFIG_PARSER_FAILURE _ =>
      match value with
      | PStr str => if contains_char ":" str then v' = PList []
                    else v' = self_value
      | _ => v' = self_value
      end
  end.
Proof.
  destruct value as [| z | str | l | d]; simpl.
  - destruct (type_ PNone) as [e | v]; cbn [rbind ok catch_value_error].
    + destruct e; intros H; try discriminate. injection H as <- <-. reflexivity.
    + intros H. injection H as <- <-. eauto.
  - destruct (type_ (PInt z)) as [e | v]; cbn [rbind ok catch_value_error].
    + destruct e; intros H; try discriminate. injection H as <- <-. reflexivity.
    + intros H. injection H as <- <-. eauto.
  - destruct (contains_char ":" str); simpl;
      [| intros H; injection H as <- <-; reflexivity].
    destruct (split_on ":" str) as [| a [| b [| c [| x more]]]];
      try (intros H; injection H as <- <-; reflexivity);
      apply set_value_dict_shape.
  - intros H. injection H as <- <-. eauto.
  - apply set_value_dict_shape.
Qed.

(** X13: a mapping is accepted only when it has exactly the keys start and
    stop, or start, stop and step, all of them integers or integer
    literals, with start not above stop; what is stored is then the one
    string "start:stop:step", the step being 1 when the mapping has none. *)
Theorem set_value_dict_accepts
    (self_value : PyVal) (d : list (string * PyVal)) (v' : PyVal) :
  set_value type_ self_value (PDict d) = ok (CONFIG_PARSER_SUCCESS, v') ->
  exists vstart vstop start stop step,
    dict_get d "start" = Some vstart /\ py_int vstart = ok start /\
    dict_get d "stop" = Some vstop /\ py_int vstop = ok stop /\
    match dict_get d "step" with
    | None => step = 1 /\ length d = 2%nat
    | Some vstep => py_int vstep = ok step /\ length d = 3%nat
    end /\
    start <= stop /\
    v' = PList [PStr (range_string start stop step)].
Proof.
  simpl. unfold set_value_dict, dict_has.
  destruct (dict_get d "start") as [vstart |] eqn:Hs;
    [| rewrite !andb_false_r; simpl; discriminate].
  destruct (dict_get d "stop") as [vstop |] eqn:He;
    [| rewrite !andb_false_r; simpl; discriminate].
  rewrite !andb_true_r.
  destruct (py_int vstart) as [e | start] eqn:Hps; cbn [rbind ok].
  { destruct (_ || _); [destruct e |]; discriminate. }
  destruct (py_int vstop) as [e | stop] eqn:Hpe; cbn [rbind ok].
  { destruct (_ || _); [destruct e |]; discriminate. }
  destruct (dict_get d "step") as [vstep |] eqn:Hstep.
  - rewrite andb_true_r.
    destruct (py_int vstep) as [e | step] eqn:Hpst; cbn [rbind ok].
    { destruct (_ || _); [destruct e |]; discriminate. }
    destruct (Nat.eqb_spec (length d) 2) as [H2 | H2],
             (Nat.eqb_spec (length d) 3) as [H3 | H3];
      cbn [orb]; try discriminate; try lia.
    + (* two entries cannot hold three distinct keys *)
      exfalso. destruct d as [| [k1 x1] [| [k2 x2] [| ? ?]]]; try discriminate.
      simpl in Hs, He, Hstep.
      destruct (String.eqb_spec k1 "start"), (String.eqb_spec k1 "stop"),
               (String.eqb_spec k1 "step"),
               (String.eqb_spec k2 "start"), (String.eqb_spec k2 "stop"),
               (String.eqb_spec k2 "step"); subst; try discriminate.
    + destruct (Z.gtb_spec start stop) as [Hgt | Hle]; cbn [catch_value_error ok];
        intros H; [discriminate |].
      injection H as <-. exists vstart, vstop, start, stop, step.
      repeat split; auto; lia.
  - rewrite andb_false_r, orb_false_r. cbn [rbind ok].
    destruct (Nat.eqb_spec (length d) 2) as [H2 | H2]; [| discriminate].
    destruct (Z.gtb_spec start stop) as [Hgt | Hle]; cbn [catch_value_error ok];
      intros H; [discriminate |].
    injection H as <-. exists vstart, vstop, start, stop, 1.
    repeat split; auto; lia.
Qed.

Lemma contains_colon_joined (a rest : string) :
  contains_char ":" (a ++ String ":" rest) = true.
Proof. rewrite contains_char_app. simpl. apply orb_true_r. Qed.

(** X14: a string "a:b:c" whose three parts hold no colon is treated as the
    mapping {start: a, stop: b, step: c} set on a field that was first reset
    to the empty list; "a:b" as the mapping with step 1. *)
Theorem set_value_string_as_dict (self_value : PyVal) (a b c : string) :
  contains_char ":" a = false ->
  contains_char ":" b = false ->
  contains_char ":" c = false ->
  set_value type_ self_value (PStr (a ++ ":" ++ b ++ ":" ++ c))
  = set_value type_ (PList [])
      (PDict [("start", PStr a); ("stop", PStr b); ("step", PStr c)]) /\
  set_value type_ self_value (PStr (a ++ ":" ++ b))
  = set_value type_ (PList [])
      (PDict [("start", PStr a); ("stop", PStr b); ("step", PInt 1)]).
Proof.
  intros Ha Hb Hc. split.
  - cbn [set_value]. change (":" ++ b ++ ":" ++ c) with (String ":" (b ++ String ":" c)).
    rewrite contains_colon_joined. cbn [negb].
    rewrite (split_on_app _ _ _ Ha), (split_on_app _ _ _ Hb),
      (split_on_no_sep _ _ Hc).
    reflexivity.
  - cbn [set_value]. change (":" ++ b) with (String ":" b).
    rewrite contains_colon_joined. cbn [negb].
    rewrite (split_on_app _ _ _ Ha), (split_on_no_sep _ _ Hb).
    reflexivity.
Qed.

Lemma set_value_dict_ints (sv : PyVal) (vstart vstop vstep : PyVal)
    (start stop step : Z) :
  py_int vstart = ok start -> py_int vstop = ok stop -> py_int vstep = ok step ->
  catch_value_error sv
    (set_value_dict sv [("start", vstart); ("stop", vstop); ("step", vstep)])
  = if start >? stop then ok (CONFIG_PARSER_FAILURE start_after_stop, sv)
    else ok (CONFIG_PARSER_SUCCESS, PList [PStr (range_string start stop step)]).
Proof.
  intros Hs He Hp. unfold set_value_dict, dict_has.
  cbn [dict_get length Nat.eqb andb orb String.eqb Ascii.eqb Bool.eqb].
  rewrite Hs, He, Hp. cbn [rbind ok].
  destruct (start >? stop); reflexivity.
Qed.

(** X15: for integers, the mapping {start, stop, step} and the string
    "start:stop:step" are both stored as the one string "start:stop:step"
    when start is not above stop, so that what [set_value] stores is
    accepted unchanged when set again; both are refused when start is above
    stop. *)
Theorem set_value_range_normal_form (self_value : PyVal) (start stop step : Z) :
  set_value type_ self_value
    (PDict [("start", PInt start); ("stop", PInt stop); ("step", PInt step)])
  = (if start >? stop
     then ok (CONFIG_PARSER_FAILURE start_after_stop, self_value)
     else ok (CONFIG_PARSER_SUCCESS,
              PList [PStr (range_string start stop step)])) /\
  set_value type_ self_value (PStr (range_string start stop step))
  = (if start >? stop
     then ok (CONFIG_PARSER_FAILURE start_after_stop, PList [])
     else ok (CONFIG_PARSER_SUCCESS,
              PList [PStr (range_string start stop step)])).
Proof.
  split.
  - cbn [set_value]. apply set_value_dict_ints; reflexivity.
  - unfold range_string.
    rewrite (proj1 (set_value_string_as_dict self_value _ _ _
                      (contains_colon_str_of_int start)
                      (contains_colon_str_of_int stop)
                      (contains_colon_str_of_int step))).
    cbn [set_value].
    apply set_value_dict_ints; apply int_of_string_str_of_int.
Qed.

End RangeNumericMore.

(** ** More on the brute-plus generator *)

Section BrutePlusMore.

Context {RCM : Type} `{M : Measurement RCM}.
Variable K : Constants.
Variable config : ConfigCommandProfile.

Local Open Scope string_scope.

Lemma perf_get_update_same (p : PerfConfig) (key : string) (v : Z) :
  perf_get (update_config p key v) key = Some v.
Proof.
  induction p as [| [k w] rest IH]; simpl.
  - rewrite String.eqb_refl. reflexivity.
  - destruct (String.eqb_spec k key) as [-> | Hne]; simpl.
    + rewrite String.eqb_refl. reflexivity.
    + apply String.eqb_neq in Hne. rewrite Hne. exact IH.
Qed.

Lemma perf_get_update_other (p : PerfConfig) (key other : string) (v : Z) :
  other <> key ->
  perf_get (update_config p key v) other = perf_get p other.
Proof.
  intros Hne. induction p as [| [k w] rest IH]; simpl.
  - destruct (String.eqb_spec key other); [congruence | reflexivity].
  - destruct (String.eqb_spec k key) as [-> | Hk]; simpl.
    + destruct (String.eqb_spec key other); [congruence | reflexivity].
    + rewrite IH. reflexivity.
Qed.

Lemma update_config_twice (p : PerfConfig) (key : string) (v w : Z) :
  update_config (update_config p key v) key w = update_config p key w.
Proof.
  induction p as [| [k x] rest IH]; simpl.
  - rewrite String.eqb_refl. reflexivity.
  - destruct (String.eqb_spec k key) as [-> | Hne]; simpl.
    + rewrite String.eqb_refl. reflexivity.
    + apply String.eqb_neq in Hne. rewrite Hne, IH. reflexivity.
Qed.

Lemma set_concurrency_twice (run_config : RunConfig) (c c' : Z) :
  _set_concurrency (_set_concurrency run_config c) c'
  = _set_concurrency run_config c'.
Proof.
  unfold _set_concurrency. rewrite map_map. apply map_ext.
  intros p. apply update_config_twice.
Qed.

(** X16: after [_set_concurrency], every perf_config of the run
    configuration has concurrency-range at the given value and every other
    argument as before, no perf_config is added or dropped, and a second
    call simply overwrites the first. *)
Theorem set_concurrency_spec (run_config : RunConfig) (c c' : Z) :
  length (_set_concurrency run_config c) = length run_config /\
  (forall i p, nth_error run_config i = Some p ->
     exists p', nth_error (_set_concurrency run_config c) i = Some p' /\
                perf_get p' "concurrency-range" = Some c /\
                forall other, other <> "concurrency-range" ->
                              perf_get p' other = perf_get p other) /\
  _set_concurrency (_set_concurrency run_config c) c'
  = _set_concurrency run_config c'.
Proof.
  split; [apply length_map |]. split; [| apply set_concurrency_twice].
  intros i p Hp. unfold _set_concurrency.
  exists (update_config p "concurrency-range" c).
  split; [rewrite nth_error_map, Hp; reflexivity |].
  split; [apply perf_get_update_same |].
  intros other Hne. apply perf_get_update_other. exact Hne.
Qed.

(** X17: the run configurations the refinement yields for one top result
    are that result's run configuration with its concurrency set, in turn,
    to the values the concurrency search emits when it is fed exactly one
    measurement after each of them. *)
Theorem search_loop_emits_search_concurrencies
    (search : Gen Z (list (option RCM)) (ConcurrencySearch RCM)) :
  forall (run_config : RunConfig) (last : option (option RCM))
         (script : list (@Feedback RCM)),
  exists ms,
    emitted (search_loop search run_config last) script
    = map (_set_concurrency run_config) (emitted search (lockstep ms)).
Proof.
  unfold emitted.
  induction search as [a | e | c k IH]; intros run_config last script.
  - exists []. reflexivity.
  - exists []. reflexivity.
  - simpl. destruct script as [| r rs]; [exists []; reflexivity |].
    destruct (set_last_measurement last r) as [m |]; [| exists []; reflexivity].
    destruct (IH [m] (_set_concurrency run_config c) (Some m) rs) as [ms Hms].
    exists (m :: ms). simpl.
    destruct (run (search_loop (k [m]) (_set_concurrency run_config c) (Some m)) rs)
      as [ys o].
    destruct (run (k [m]) (lockstep ms)) as [zs o'].
    simpl in *. rewrite Hms. f_equal.
    apply map_ext. intros c'. apply set_concurrency_twice.
Qed.

(** With the constructor called as the sources call it, the loop over the
    models ends normally when no model has a top result and raises TypeError
    at the first one that has. *)
Lemma models_loop_src (top_n_results : string -> list RunConfig)
    (names : list string) :
  forall last : option (option RCM),
    models_loop K config top_n_results ConcurrencySearch_skip_parameter_sweep
      names last
    = if forallb (fun name => match top_n_results name with
                              | [] => true
                              | _ :: _ => false
                              end) names
      then Ret last
      else Raise TypeError.
Proof.
  induction names as [| name rest IH]; intros last; simpl; [reflexivity |].
  destruct (top_n_results name) as [| result more]; simpl.
  - apply IH.
  - reflexivity.
Qed.

(** X18: as the sources stand, the refinement over the top results yields
    no run configuration at all: the search is instantiated with a keyword
    its constructor does not take, so the refinement raises TypeError at the
    first top result of the first model that has one, and ends normally
    only when no model has a top result. *)
Theorem refinement_raises_type_error
    (get_model_names : list string) (top_n_results : string -> list RunConfig)
    (last : option (option RCM)) (script : list (@Feedback RCM)) :
  run (_binary_search_over_top_results_src K config get_model_names
         top_n_results last) script
  = ([], if forallb (fun name => match top_n_results name with
                                 | [] => true
                                 | _ :: _ => false
                                 end) get_model_names
         then Finished last
         else Raised TypeError).
Proof.
  unfold _binary_search_over_top_results_src, _binary_search_over_top_results.
  rewrite models_loop_src.
  destruct (forallb _ get_model_names); reflexivity.
Qed.

(** X19: as the sources stand, [get_configs] yields exactly the run
    configurations of the brute search, in automatic mode too; when the
    brute search has finished, the mode is automatic and some model has a
    top result, the generator then ends with TypeError instead of
    finishing. *)
Theorem get_configs_yields_brute_search_only
    (models : list ModelProfileSpec)
    (brute : Gen RunConfig (@Feedback RCM) unit)
    (get_model_names : list string) (top_n_results : string -> list RunConfig)
    (script : list (@Feedback RCM)) :
  emitted (get_configs_src K config models brute get_model_names top_n_results)
    script
  = emitted brute script /\
  outcome (get_configs_src K config models brute get_model_names top_n_results)
    script
  = match outcome brute script with
    | Finished _ =>
        if _is_automatic_search_mode models
           && negb (forallb (fun name => match top_n_results name with
                                         | [] => true
                                         | _ :: _ => false
                                         end) get_model_names)
        then Raised TypeError
        else Finished tt
    | Raised e => Raised e
    | Suspended => Suspended
    end.
Proof.
  destruct (execute_brute_search_run brute None script) as [Hem Hout].
  unfold get_configs_src, get_configs, emitted, outcome in *.
  rewrite run_gbind.
  destruct (run (_execute_brute_search brute None) script) as [ys o].
  destruct (run brute script) as [zs o']. simpl in Hem, Hout. subst zs.
  destruct o' as [[] | e |].
  - destruct Hout as [last' ->]. unfold after_brute_search.
    destruct (_is_automatic_search_mode models); simpl.
    + rewrite run_gbind.
      pose proof (refinement_raises_type_error get_model_names top_n_results
                    last' (skipn (length ys) script)) as Href.
      unfold _binary_search_over_top_results_src in Href. rewrite Href.
      destruct (forallb _ get_model_names); simpl;
        rewrite app_nil_r; split; reflexivity.
    + rewrite app_nil_r. split; reflexivity.
  - rewrite Hout. split; reflexivity.
  - rewrite Hout. split; reflexivity.
Qed.

End BrutePlusMore.

(** ** The further properties at concrete inputs *)

Module MoreExamples.

Abbreviation TM := ThroughputMeasurement.

Lemma sweep_records_history_witness :
  _concurrencies (search_after 0 1 5 [1; 2] [pass_at 1; pass_at 2])
  = _concurrencies (@fresh_search TM 0 1 5) ++ [1; 2] /\
  _run_config_measurements (search_after 0 1 5 [1; 2] [pass_at 1; pass_at 2])
  = _run_config_measurements (@fresh_search TM 0 1 5)
    ++ concat (firstn (length [1; 2]) (lockstep [pass_at 1; pass_at 2])).
Proof.
  exact (sweep_records_history default_constants
           (fresh_search 0 1 5)
           (search_after 0 1 5 [1; 2] [pass_at 1; pass_at 2])
           (lockstep [pass_at 1; pass_at 2]) [1; 2] eq_refl).
Defined.



Lemma no_failure_no_violation_witness :
  _was_constraint_violated
    (search_after 0 2 5 [1; 2; 4] [pass_at 1; None; pass_at 3])
  = ok (false, search_after 0 2 5 [1; 2; 4] [pass_at 1; None; pass_at 3]).
Proof.
  apply (no_failure_no_violation
           (search_after 0 2 5 [1; 2; 4] [pass_at 1; None; pass_at 3])).
  - discriminate.
  - repeat constructor.
Defined.

Lemma empty_history_index_error_witness :
  _was_constraint_violated (@fresh_search TM 1 0 5) = raise IndexError /\
  ((_max_concurrency_index (@fresh_search TM 1 0 5)
    < _min_concurrency_index (@fresh_search TM 1 0 5))%nat ->
   run (search_concurrencies default_constants (@fresh_search TM 1 0 5)) []
   = ([], Raised IndexError)).
Proof.
  apply (empty_history_index_error default_constants (@fresh_search TM 1 0 5) []).
  reflexivity.
Defined.

Lemma determine_next_between_witness :
  exists c s1,
    _determine_next_binary_concurrency
      (set_last_passing
         (set_last_failing
            (search_after 0 3 5 [1; 2; 4; 8; 8]
               [pass_at 1; pass_at 2; pass_at 3; fail_at 4]) 8) 4)
    = ok (c, s1) /\
    s1 = set_last_failing
           (set_last_passing
              (set_last_failing
                 (search_after 0 3 5 [1; 2; 4; 8; 8]
                    [pass_at 1; pass_at 2; pass_at 3; fail_at 4]) 8) 4) 8 /\
    Z.min 8 4 <= c <= Z.max 8 4.
Proof.
  refine (determine_next_between
            (set_last_passing
               (set_last_failing
                  (search_after 0 3 5 [1; 2; 4; 8; 8]
                     [pass_at 1; pass_at 2; pass_at 3; fail_at 4]) 8) 4)
            {| throughput := 4; passing := false |} 8 _ _ _ _ _ _ _).
  - reflexivity.
  - reflexivity.
  - lia.
  - simpl. lia.
  - simpl. lia.
  - reflexivity.
  - reflexivity.
Defined.

Lemma binary_search_converged_witness :
  run (binary_loop 3
         (set_last_failing
            (search_after 0 1 5 [1; 2; 2; 1] [pass_at 1; fail_at 2; pass_at 1])
            2)) []
  = ([], Finished
           (set_last_passing
              (set_last_failing
                 (search_after 0 1 5 [1; 2; 2; 1]
                    [pass_at 1; fail_at 2; pass_at 1]) 2) 1)).
Proof.
  apply (binary_search_converged
           (set_last_failing
              (search_after 0 1 5 [1; 2; 2; 1] [pass_at 1; fail_at 2; pass_at 1])
              2)
           (set_last_passing
              (set_last_failing
                 (search_after 0 1 5 [1; 2; 2; 1]
                    [pass_at 1; fail_at 2; pass_at 1]) 2) 1)
           1 3 []).
  - reflexivity.
  - reflexivity.
Defined.

Lemma sweep_emits_first_tries_witness :
  exists rest,
    emitted (_perform_concurrency_sweep default_constants (fresh_search 0 5 5))
      (lockstep [None; fail_at 1; None; pass_at 7; None])
    = firstn (Nat.min 4 (S (length (lockstep [None; fail_at 1; None; pass_at 7; None]))))
             (map (fun i => 2 ^ Z.of_nat i) (py_range 0 (5 + 1)))
      ++ rest.
Proof.
  destruct (sweep_emits_first_tries default_constants (fresh_search 0 5 5)
              [None; fail_at 1; None; pass_at 7; None] eq_refl eq_refl)
    as [rest Hrest].
  exists rest. exact Hrest.
Defined.

Lemma was_constraint_violated_interior_witness :
  _was_constraint_violated
    (search_after 0 3 5 [1; 2; 4; 8]
       [pass_at 1; pass_at 2; fail_at 3; fail_at 3])
  = ok (true,
        set_last_passing
          (set_last_failing
             (search_after 0 3 5 [1; 2; 4; 8]
                [pass_at 1; pass_at 2; fail_at 3; fail_at 3]) 4) 2).
Proof.
  apply (was_constraint_violated_interior
           (search_after 0 3 5 [1; 2; 4; 8]
              [pass_at 1; pass_at 2; fail_at 3; fail_at 3]) 2 4 2).
  - simpl. lia.
  - reflexivity.
  - simpl. intros j Hj. assert (j = 3%nat) as -> by lia. reflexivity.
  - reflexivity.
  - reflexivity.
Defined.

Lemma was_constraint_violated_first_fails_witness :
  _was_constraint_violated
    (search_after 0 2 5 [1; 2; 4] [fail_at 1; fail_at 2; fail_at 4])
  = ok (true,
        set_last_passing
          (set_last_failing
             (search_after 0 2 5 [1; 2; 4] [fail_at 1; fail_at 2; fail_at 4])
             4) 0).
Proof.
  apply (was_constraint_violated_first_fails
           (search_after 0 2 5 [1; 2; 4] [fail_at 1; fail_at 2; fail_at 4])
           {| throughput := 1; passing := false |} [fail_at 2; fail_at 4]).
  - reflexivity.
  - reflexivity.
  - simpl. intros j Hj. assert (j = 2%nat) as -> by lia. reflexivity.
Defined.

Local Open Scope string_scope.

Lemma set_value_field_after_witness :
  exists l, PList [PStr "2:10:2"] = PList l.
Proof.
  apply (set_value_field_after (fun v => ok v) PNone (PStr "2:10:2")
           CONFIG_PARSER_SUCCESS (PList [PStr "2:10:2"])).
  reflexivity.
Defined.

Lemma set_value_dict_accepts_witness :
  exists vstart vstop start stop step,
    dict_get [("start", PInt 2); ("stop", PStr "10")] "start" = Some vstart /\
    py_int vstart = ok start /\
    dict_get [("start", PInt 2); ("stop", PStr "10")] "stop" = Some vstop /\
    py_int vstop = ok stop /\
    match dict_get [("start", PInt 2); ("stop", PStr "10")] "step" with
    | None => step = 1 /\ length [("start", PInt 2); ("stop", PStr "10")] = 2%nat
    | Some vstep =>
        py_int vstep = ok step
        /\ length [("start", PInt 2); ("stop", PStr "10")] = 3%nat
    end /\
    start <= stop /\
    PList [PStr "2:10:1"] = PList [PStr (range_string start stop step)].
Proof.
  apply (set_value_dict_accepts (fun v => ok v) PNone
           [("start", PInt 2); ("stop", PStr "10")] (PList [PStr "2:10:1"])).
  reflexivity.
Defined.

Lemma set_value_string_as_dict_witness :
  set_value (fun v => ok v) PNone (PStr ("2" ++ ":" ++ "10" ++ ":" ++ "2"))
  = set_value (fun v => ok v) (PList [])
      (PDict [("start", PStr "2"); ("stop", PStr "10"); ("step", PStr "2")]) /\
  set_value (fun v => ok v) PNone (PStr ("2" ++ ":" ++ "10"))
  = set_value (fun v => ok v) (PList [])
      (PDict [("start", PStr "2"); ("stop", PStr "10"); ("step", PInt 1)]).
Proof.
  apply (set_value_string_as_dict (fun v => ok v) PNone "2" "10" "2");
    reflexivity.
Defined.

End MoreExamples.
